(** * Pod monitor operator: a shallow embedding of [k8s_pod_monitor.py]

    The development models the operator of [src/k8s_pod_monitor.py]:
    the health handler, the Slack notifier, the pod filter, the event
    handler, the watch loop of [PodMonitorOperator.run] and [main].

    Effects are explicit.  Every observable action of the program
    (a log line, an HTTP POST to the webhook, a [time.sleep], a call of
    [w.stream], an assignment to [self.running], starting and stopping the
    health server) is appended to a trace carried by the state; Python
    exceptions are the [Raise] outcome of a small state-and-error monad. *)

From Stdlib Require Import ZArith Ascii String.
From stdpp Require Import base option list strings pretty gmap fin_maps.

Local Open Scope string_scope.
Local Open Scope Z_scope.
Local Open Scope list_scope.

(** ** Python values the program handles *)

(** Exceptions.  [ApiException] is [kubernetes.client.rest.ApiException];
    [PyException cls msg] is any other subclass of [Exception] (the
    missing-attribute error on [None], a transport error of the watch, a
    malformed payload, ...); [KeyboardInterrupt] derives from
    [BaseException] only, so [except Exception] does not catch it.  The
    string carried is [str(e)], which the f-strings of the log lines print. *)
Inductive exn :=
| ApiException (msg : string)
| PyException (cls msg : string)
| KeyboardInterrupt.

Definition is_ApiException (x : exn) : bool :=
  match x with ApiException _ => true | _ => false end.

(** [isinstance(x, Exception)]. *)
Definition is_Exception (x : exn) : bool :=
  match x with KeyboardInterrupt => false | _ => true end.

(** [str(e)] *)
Definition exn_str (x : exn) : string :=
  match x with
  | ApiException msg => msg
  | PyException _ msg => msg
  | KeyboardInterrupt => ""
  end.

(** A value that is either [None] or a [str]. *)
Inductive pyval :=
| VNone
| VStr (s : string).

(** What [f"{v}"] prints. *)
Definition format_value (v : pyval) : string :=
  match v with
  | VNone => "None"
  | VStr s => s
  end.

(** The slot of a key in a [dict]: the key may be missing, or be there
    holding [None], or holding a value. *)
Inductive entry (A : Type) :=
| Missing
| PyNone
| Val (a : A).
Arguments Missing {A}.
Arguments PyNone {A}.
Arguments Val {A} a.

(** ** Pods and events *)

(** [V1ObjectMeta], restricted to the attributes the operator reads. *)
Record V1ObjectMeta := {
  name : option string;
  namespace : option string;
  labels : option (gmap string string)
}.

(** [V1Pod]: [pod.metadata] is [None] or a [V1ObjectMeta]. *)
Record V1Pod := {
  metadata : option V1ObjectMeta
}.

(** An event yielded by [w.stream] whose object the watch has deserialized
    to a [V1Pod]: [event['type']] and [event['object']]. *)
Record Event := {
  ev_type : string;
  ev_object : V1Pod
}.

(** The dictionary [_handle_pod_event] receives, restricted to the keys
    it reads: [pod['metadata']['name']]. *)
Record meta_dict := { md_name : entry string }.
Record pod_dict := { pd_metadata : entry meta_dict }.

(** An event yielded by [w.stream] whose object the watch has left as the
    dictionary it received, which is what it does for an event of type
    [BOOKMARK]: [event['type']] and [event['object']], a [dict]. *)
Record DictEvent := {
  de_type : string;
  de_object : pod_dict
}.

(** [pod.to_dict()]: every attribute becomes a key; an attribute that is
    [None] stays [None]. *)
Definition to_dict (pod : V1Pod) : pod_dict :=
  {| pd_metadata :=
       match metadata pod with
       | None => PyNone
       | Some m =>
           Val {| md_name := match name m with
                             | None => PyNone
                             | Some s => Val s
                             end |}
       end |}.

(** ** The world around the operator *)

(** What the webhook does with one POST: an HTTP response with a status
    code, or a transport failure ([requests.exceptions.RequestException],
    a subclass of [Exception]) carrying its [str]. *)
Inductive webhook_outcome :=
| Responds (status_code : Z)
| TransportFailure (msg : string).

(** What the main thread meets while it iterates over one watch session:
    the generator yields an event with a pod, the generator raises (an
    error of the API or of the transport, and also a payload the watch
    cannot read, such as a pod without metadata), another thread calls
    [operator.stop()] while the main thread is blocked in the read, or
    the generator yields an event whose object is a dictionary.  The end
    of the list is the end of the generator (the server-side timeout of
    60 seconds). *)
Inductive item :=
| Deliver (ev : Event)
| Fail (x : exn)
| StopRequest
| DeliverDict (ev : DictEvent).

Record World := {
  (** the environment variables *)
  environ : gmap string string;
  (** [config.load_incluster_config()] succeeds *)
  incluster_config : bool;
  (** [config.load_kube_config()]: [None] on success, or the [str] of
      the [ConfigException] it raises *)
  kube_config : option string;
  (** [HTTPServer(('', 8080), HealthHandler)]: [None] on success, or the
      [str] of the [OSError] of the bind *)
  bind : option string;
  (** the [n]-th call of [w.stream] *)
  stream : nat -> list item;
  (** the outcome of the [n]-th POST to the webhook *)
  webhook : nat -> webhook_outcome;
  (** another thread calls [operator.stop()] during the backoff sleep
      that follows the failure of the [n]-th session *)
  stop_during_sleep : nat -> bool
}.

(** ** Observable actions *)

Inductive level := INFO | ERROR.

(** The JSON payload of [SlackNotifier.send_message]. *)
Record payload := {
  text : string;
  username : string;
  icon_emoji : string
}.

Inductive action :=
| Log (l : level) (msg : string)
| SetRunning (b : bool)
| HealthStart (port : Z)
| HealthShutdown
| HealthJoin
| OpenStream (ns : string) (timeout_seconds : Z)
| Recv (ev : Event)
| Post (url : string) (json : payload) (timeout : Z)
| Sleep (seconds : Z)
| RecvDict (ev : DictEvent).

(** ** State of the operator *)

Record State := {
  st_namespace : string;          (* self.namespace *)
  webhook_url : string;           (* self.slack_notifier.webhook_url *)
  running : bool;                 (* self.running *)
  hs_server : bool;               (* self.health_server.server is not None *)
  hs_thread : bool;               (* self.health_server.thread is not None *)
  opened : nat;                   (* calls of w.stream so far *)
  posts : nat;                    (* calls of requests.post so far *)
  trace : list action             (* the actions so far, oldest first *)
}.

Definition emit (a : action) (st : State) : State :=
  {| st_namespace := st_namespace st; webhook_url := webhook_url st;
     running := running st; hs_server := hs_server st;
     hs_thread := hs_thread st; opened := opened st; posts := posts st;
     trace := trace st ++ [a] |}.

Definition set_running (b : bool) (st : State) : State :=
  {| st_namespace := st_namespace st; webhook_url := webhook_url st;
     running := b; hs_server := hs_server st;
     hs_thread := hs_thread st; opened := opened st; posts := posts st;
     trace := trace st ++ [SetRunning b] |}.

Definition set_health (srv thr : bool) (st : State) : State :=
  {| st_namespace := st_namespace st; webhook_url := webhook_url st;
     running := running st; hs_server := srv;
     hs_thread := thr; opened := opened st; posts := posts st;
     trace := trace st |}.

Definition count_open (st : State) : State :=
  {| st_namespace := st_namespace st; webhook_url := webhook_url st;
     running := running st; hs_server := hs_server st;
     hs_thread := hs_thread st; opened := S (opened st); posts := posts st;
     trace := trace st |}.

Definition count_post (st : State) : State :=
  {| st_namespace := st_namespace st; webhook_url := webhook_url st;
     running := running st; hs_server := hs_server st;
     hs_thread := hs_thread st; opened := opened st; posts := S (posts st);
     trace := trace st |}.

(** ** A state-and-error monad *)

(** The outcome of a call: it returns, it raises, or it is still running
    when the fuel of the watch loop is used up. *)
Inductive result (A : Type) :=
| Ok (a : A)
| Raise (x : exn)
| Pending.
Arguments Ok {A} a.
Arguments Raise {A} x.
Arguments Pending {A}.

Definition M (A : Type) : Type := State -> result A * State.

Definition ret {A} (a : A) : M A := fun st => (Ok a, st).
Definition raise {A} (x : exn) : M A := fun st => (Raise x, st).
Definition bind_M {A B} (m : M A) (k : A -> M B) : M B :=
  fun st =>
    match m st with
    | (Ok a, st') => k a st'
    | (Raise x, st') => (Raise x, st')
    | (Pending, st') => (Pending, st')
    end.
Definition act (f : State -> State) : M unit := fun st => (Ok tt, f st).
Definition get {A} (f : State -> A) : M A := fun st => (Ok (f st), st).

Notation "'do' x <- m ; k" := (bind_M m (fun x => k))
  (at level 10, x name, m at level 100, k at level 200,
   format "'[v' 'do'  x  <-  m ; '/' k ']'").
Notation "m >> k" := (bind_M m (fun _ => k))
  (at level 90, right associativity).

(** [try: body except ...]: [handler x] is [None] when no [except]
    clause matches [x], which then propagates. *)
Definition try_except {A} (body : M A) (handler : exn -> option (M A)) : M A :=
  fun st =>
    match body st with
    | (Raise x, st') =>
        match handler x with
        | Some h => h st'
        | None => (Raise x, st')
        end
    | r => r
    end.

(** [try: body finally: cleanup] *)
Definition try_finally {A} (body : M A) (cleanup : M unit) : M A :=
  fun st =>
    match body st with
    | (Pending, st') => (Pending, st')
    | (r, st') =>
        match cleanup st' with
        | (Ok _, st'') => (r, st'')
        | (Raise y, st'') => (Raise y, st'')
        | (Pending, st'') => (Pending, st'')
        end
    end.

(** [except Exception as e: h(e)] *)
Definition except_Exception {A} (h : exn -> M A) (x : exn) : option (M A) :=
  if is_Exception x then Some (h x) else None.

Definition log (l : level) (msg : string) : M unit := act (emit (Log l msg)).


(** ** [HealthHandler] *)

(** [datetime.utcnow()]: the fields of the naive UTC time. *)
Record datetime := {
  year : N; month : N; day : N;
  hour : N; minute : N; second : N; microsecond : N
}.

Definition digit (n : N) : ascii := ascii_of_N (48 + n mod 10).

Definition digits2 (n : N) : string :=
  String (digit (n / 10)) (String (digit n) "").

Definition digits4 (n : N) : string :=
  String (digit (n / 1000)) (String (digit (n / 100)) (digits2 n)).

Definition digits6 (n : N) : string :=
  String (digit (n / 100000)) (String (digit (n / 10000)) (digits4 n)).

(** [datetime.isoformat()]: [YYYY-MM-DDTHH:MM:SS], followed by [.ffffff]
    when the microsecond is not 0. *)
Definition isoformat (d : datetime) : string :=
  digits4 (year d) +:+ "-" +:+ digits2 (month d) +:+ "-" +:+ digits2 (day d)
  +:+ "T" +:+ digits2 (hour d) +:+ ":" +:+ digits2 (minute d)
  +:+ ":" +:+ digits2 (second d)
  +:+ (if N.eqb (microsecond d) 0 then ""
       else "." +:+ digits6 (microsecond d)).

(** What the handler writes back: the status line, the headers and the
    body.  The body is the dictionary handed to [json.dumps], key by key. *)
Record response := {
  status : Z;
  headers : list (string * string);
  body : option (list (string * string))
}.

(** What the handler reads of its surroundings while it answers a
    request: [self.version_string()], [self.date_time_string()] and
    [datetime.utcnow()]. *)
Record moment := {
  version_string : string;
  date_time_string : string;
  utcnow : datetime
}.

(** [self.send_response(code)]: the status line, then the [Server] and
    [Date] headers.  The request line it would log goes to
    [log_message], which [HealthHandler] overrides to do nothing. *)
Definition send_response (m : moment) (code : Z) : response :=
  {| status := code;
     headers := [("Server", version_string m); ("Date", date_time_string m)];
     body := None |}.

(** [self.send_header(keyword, value)] *)
Definition send_header (keyword value : string) (r : response) : response :=
  {| status := status r;
     headers := headers r ++ [(keyword, value)];
     body := body r |}.

(** [self.wfile.write(json.dumps(d).encode())] *)
Definition write_json (d : list (string * string)) (r : response) : response :=
  {| status := status r; headers := headers r; body := Some d |}.

(** [HealthHandler.do_GET]; [path] is [self.path]. *)
Definition do_GET (path : string) (m : moment) : response :=
  if String.eqb path "/health" then
    write_json [("status", "healthy"); ("timestamp", isoformat (utcnow m))]
      (send_header "Content-type" "application/json"
         (send_response m 200))
  else
    send_response m 404.

(** ** [HealthServer] *)

(** [HealthServer.start]: the bind of [HTTPServer] may raise; then nothing
    is assigned. *)
Definition health_start (w : World) : M unit :=
  match bind w with
  | Some e => raise (PyException "OSError" e)
  | None =>
      act (emit (HealthStart 8080)) >>
      act (set_health true true) >>
      log INFO "Health server started on port 8080"
  end.

(** [HealthServer.stop] *)
Definition health_stop : M unit :=
  (do srv <- get hs_server;
   if srv then act (emit HealthShutdown) else ret tt) >>
  (do thr <- get hs_thread;
   if thr then act (emit HealthJoin) else ret tt) >>
  log INFO "Health server stopped".

(** A request reaches the handler while the server thread serves, that is
    after the [HealthStart] and before the first [HealthShutdown] of the
    trace. *)
Definition is_HealthStart (a : action) : bool :=
  match a with HealthStart _ => true | _ => false end.

Definition is_HealthShutdown (a : action) : bool :=
  match a with HealthShutdown => true | _ => false end.

Definition serving (t : list action) : bool :=
  existsb is_HealthStart t && negb (existsb is_HealthShutdown t).

(** A GET request to the health port at the moment the trace is [t]:
    [None] when nothing listens.  The handler thread reads nothing of the
    operator and changes nothing. *)
Definition health_request (t : list action) (path : string) (m : moment)
  : option response :=
  if serving t then Some (do_GET path m) else None.

(** ** [SlackNotifier] *)

(** [requests.post(url, json=payload, timeout=10)]: the status code of
    the response, or the exception of the transport. *)
Definition requests_post (w : World) (url : string) (json : payload)
    (timeout : Z) : M Z :=
  do n <- get posts;
  act (emit (Post url json timeout)) >>
  act count_post >>
  match webhook w n with
  | Responds status_code => ret status_code
  | TransportFailure e => raise (PyException "RequestException" e)
  end.

(** [SlackNotifier.send_message] *)
Definition send_message (w : World) (message : string) : M bool :=
  try_except
    (do url <- get webhook_url;
     do status_code <-
       requests_post w url {| text := message;
                              username := "k8s-pod-monitor";
                              icon_emoji := ":robot_face:" |} 10;
     if Z.eqb status_code 200 then
       log INFO ("Slack message sent successfully: " +:+ message) >>
       ret true
     else
       log ERROR ("Failed to send Slack message. Status: "
                  +:+ pretty status_code) >>
       ret false)
    (except_Exception (fun e =>
       log ERROR ("Error sending Slack message: " +:+ exn_str e) >>
       ret false)).

(** ** [PodMonitorOperator] *)

(** [PodMonitorOperator.stop].  [self.health_server] is a [HealthServer]
    object from the first lines of [__init__] on, hence true. *)
Definition stop : M unit :=
  log INFO "Stopping Pod Monitor Operator..." >>
  act (set_running false) >>
  health_stop.

(** [x or {}] on an optional dictionary: [None] and the empty dictionary
    are both false. *)
Definition or_empty (x : option (gmap string string)) : gmap string string :=
  match x with
  | None => ∅
  | Some m => if decide (m = ∅) then ∅ else m
  end.

(** [PodMonitorOperator._should_ignore_pod].  Reading an attribute of
    [pod.metadata] raises when the metadata is [None]. *)
Definition _should_ignore_pod (pod : V1Pod) : M bool :=
  match metadata pod with
  | None =>
      raise (PyException "AttributeError"
               "'NoneType' object has no attribute 'namespace'")
  | Some m =>
      if bool_decide (namespace m = Some "kube-system") then ret true
      else
        let labels := or_empty (labels m) in
        if existsb (String.prefix "k8s-app") (map_to_list labels).*1
        then ret true
        else ret false
  end.

(** [PodMonitorOperator._extract_pod_name]:
    [pod.get('metadata', {}).get('name', 'unknown')]. *)
Definition _extract_pod_name (pod : pod_dict) : M pyval :=
  match pd_metadata pod with
  | Missing => ret (VStr "unknown")
  | PyNone =>
      raise (PyException "AttributeError"
               "'NoneType' object has no attribute 'get'")
  | Val m =>
      match md_name m with
      | Missing => ret (VStr "unknown")
      | PyNone => ret VNone
      | Val s => ret (VStr s)
      end
  end.

(** [PodMonitorOperator._handle_pod_event] *)
Definition _handle_pod_event (w : World) (event_type : string)
    (pod : pod_dict) : M unit :=
  do pod_name <- _extract_pod_name pod;
  (if String.eqb event_type "ADDED" then
     let message := "Hello world from " +:+ format_value pod_name in
     send_message w message >> ret tt
   else if String.eqb event_type "MODIFIED" then
     let message := "Things have changed, " +:+ format_value pod_name in
     send_message w message >> ret tt
   else if String.eqb event_type "DELETED" then
     let message := "Goodbye world from, " +:+ format_value pod_name in
     send_message w message >> ret tt
   else ret tt) >>
  log INFO ("Processed " +:+ event_type +:+ " event for pod: "
            +:+ format_value pod_name).

(** The [for event in w.stream(...)] loop of [run], over what the session
    brings.  A [StopRequest] is the call of [stop] by another thread while
    the main thread waits for the next item.  On an event whose object is
    a dictionary the first attribute access of [_should_ignore_pod]
    raises, a [dict] having no attribute [metadata]. *)
Fixpoint for_events (w : World) (items : list item) : M unit :=
  match items with
  | [] => ret tt
  | StopRequest :: rest => stop >> for_events w rest
  | Fail x :: _ => raise x
  | Deliver event :: rest =>
      act (emit (Recv event)) >>
      do r <- get running;
      if negb r then ret tt                        (* break *)
      else
        let event_type := ev_type event in
        let pod := ev_object event in
        do ignore <- _should_ignore_pod pod;
        if ignore then for_events w rest           (* continue *)
        else
          _handle_pod_event w event_type (to_dict pod) >>
          for_events w rest
  | DeliverDict event :: _ =>
      act (emit (RecvDict event)) >>
      do r <- get running;
      if negb r then ret tt                        (* break *)
      else
        (* [self._should_ignore_pod(pod)] starts with [pod.metadata] *)
        raise (PyException "AttributeError"
                 "'dict' object has no attribute 'metadata'")
  end.

(** [time.sleep(seconds)]; another thread may call [stop] meanwhile. *)
Definition time_sleep (w : World) (seconds : Z) : M unit :=
  act (emit (Sleep seconds)) >>
  do n <- get opened;
  if stop_during_sleep w n then stop else ret tt.

(** The two [except] clauses of the loop body of [run]. *)
Definition on_stream_error (w : World) (x : exn) : option (M unit) :=
  if is_ApiException x then
    Some (log ERROR ("Kubernetes API error: " +:+ exn_str x) >>
          do r <- get running;
          if r then time_sleep w 5 else ret tt)
  else if is_Exception x then
    Some (log ERROR ("Unexpected error: " +:+ exn_str x) >>
          do r <- get running;
          if r then time_sleep w 5 else ret tt)
  else None.

(** The body of [while self.running]. *)
Definition loop_body (w : World) : M unit :=
  try_except
    (log INFO "Starting to watch pod events..." >>
     do ns <- get st_namespace;
     do n <- get opened;
     act (emit (OpenStream ns 60)) >>
     act count_open >>
     for_events w (stream w n))
    (on_stream_error w).

(** [while self.running: ...], with fuel for the iterations. *)
Fixpoint watch_loop (w : World) (fuel : nat) : M unit :=
  do r <- get running;
  if r then
    match fuel with
    | O => fun st => (Pending, st)
    | S fuel' => loop_body w >> watch_loop w fuel'
    end
  else ret tt.

(** [PodMonitorOperator.run] *)
Definition run (w : World) (fuel : nat) : M unit :=
  do ns <- get st_namespace;
  log INFO ("Starting Pod Monitor Operator for namespace: " +:+ ns) >>
  health_start w >>
  act (set_running true) >>
  try_finally (watch_loop w fuel) stop.

(** [PodMonitorOperator._init_kubernetes_client] *)
Definition _init_kubernetes_client (w : World) : M unit :=
  try_except
    (if incluster_config w then
       log INFO "Loaded in-cluster Kubernetes config"
     else raise (PyException "ConfigException" "Service host/port is not set."))
    (except_Exception (fun _ =>
       try_except
         (match kube_config w with
          | None => log INFO "Loaded local Kubernetes config"
          | Some e => raise (PyException "ConfigException" e)
          end)
         (except_Exception (fun e =>
            log ERROR ("Failed to load Kubernetes config: " +:+ exn_str e) >>
            raise e)))).

Definition set_namespace (ns : string) (st : State) : State :=
  {| st_namespace := ns; webhook_url := webhook_url st;
     running := running st; hs_server := hs_server st;
     hs_thread := hs_thread st; opened := opened st; posts := posts st;
     trace := trace st |}.

Definition set_webhook_url (url : string) (st : State) : State :=
  {| st_namespace := st_namespace st; webhook_url := url;
     running := running st; hs_server := hs_server st;
     hs_thread := hs_thread st; opened := opened st; posts := posts st;
     trace := trace st |}.

(** [not s] on the result of [os.getenv]: [None] and the empty string are
    both false. *)
Definition falsy (s : option string) : bool :=
  match s with
  | None => true
  | Some s => String.eqb s ""
  end.

(** [PodMonitorOperator.__init__] *)
Definition __init__ (w : World) (namespace : string) : M unit :=
  act (set_namespace namespace) >>
  act (set_running false) >>
  act (set_health false false) >>
  let webhook_url := environ w !! "SLACK_WEBHOOK_URL" in
  if falsy webhook_url then
    raise (PyException "ValueError"
             "SLACK_WEBHOOK_URL environment variable is required")
  else
    act (set_webhook_url (default "" webhook_url)) >>
    _init_kubernetes_client w.

(** The [except] clauses of [main]. *)
Definition on_main_error (x : exn) : option (M unit) :=
  match x with
  | KeyboardInterrupt =>
      Some (log INFO "Received interrupt signal, shutting down...")
  | _ =>
      if is_Exception x then
        Some (log ERROR ("Fatal error: " +:+ exn_str x) >> raise x)
      else None
  end.

(** [main] *)
Definition main (w : World) (fuel : nat) : M unit :=
  try_except
    (let namespace := default "default" (environ w !! "NAMESPACE") in
     __init__ w namespace >>
     run w fuel)
    on_main_error.

(** The memory of a fresh process: no operator yet, nothing done. *)
Definition boot : State :=
  {| st_namespace := ""; webhook_url := ""; running := false;
     hs_server := false; hs_thread := false; opened := 0; posts := 0;
     trace := [] |}.

(** The exit status of the interpreter: 0 when [main] returns, 1 when an
    exception leaves it; none while it runs. *)
Definition exit_code (r : result unit) : option Z :=
  match r with
  | Ok _ => Some 0
  | Raise _ => Some 1
  | Pending => None
  end.

(** ** Reading a trace *)

(** The messages handed to the webhook, oldest first. *)
Definition posted (t : list action) : list string :=
  omap (fun a => match a with Post _ p _ => Some (text p) | _ => None end) t.

(** The backoff sleeps taken. *)
Definition sleeps (t : list action) : list Z :=
  omap (fun a => match a with Sleep s => Some s | _ => None end) t.

(** The values assigned to [self.running]. *)
Definition flag_writes (t : list action) : list bool :=
  omap (fun a => match a with SetRunning b => Some b | _ => None end) t.

(** The namespaces of the watch sessions opened. *)
Definition opens (t : list action) : list string :=
  omap (fun a => match a with OpenStream ns _ => Some ns | _ => None end) t.

(** The error lines logged. *)
Definition errors (t : list action) : list string :=
  omap (fun a => match a with Log ERROR m => Some m | _ => None end) t.

(** ** Descriptions used by the statements *)

(** The pod carries a label whose key starts with [k8s-app]. *)
Definition has_system_label (m : V1ObjectMeta) : Prop :=
  ∃ (l : gmap string string) (k : string),
    labels m = Some l ∧ is_Some (l !! k) ∧ ∃ rest, k = "k8s-app" +:+ rest.

(** The decision [_should_ignore_pod] takes on a pod with metadata. *)
Definition system_pod (m : V1ObjectMeta) : bool :=
  bool_decide (namespace m = Some "kube-system")
  || existsb (String.prefix "k8s-app") (map_to_list (or_empty (labels m))).*1.

(** What [send_message] answers to an outcome of the webhook. *)
Definition delivered (o : webhook_outcome) : bool :=
  match o with
  | Responds status_code => Z.eqb status_code 200
  | TransportFailure _ => false
  end.

(** The line [send_message] logs for an outcome. *)
Definition delivery_log (message : string) (o : webhook_outcome) : action :=
  match o with
  | Responds status_code =>
      if Z.eqb status_code 200
      then Log INFO ("Slack message sent successfully: " +:+ message)
      else Log ERROR ("Failed to send Slack message. Status: "
                      +:+ pretty status_code)
  | TransportFailure e => Log ERROR ("Error sending Slack message: " +:+ e)
  end.

(** The state [send_message] leaves. *)
Definition sent (w : World) (message : string) (st : State) : State :=
  emit (delivery_log message (webhook w (posts st)))
    (count_post
       (emit (Post (webhook_url st)
                {| text := message; username := "k8s-pod-monitor";
                   icon_emoji := ":robot_face:" |} 10) st)).

(** The message [_handle_pod_event] builds for an event type, if any: the
    three branches of its [if]/[elif] chain. *)
Definition notification (event_type : string) (pod_name : pyval)
  : option string :=
  if String.eqb event_type "ADDED" then
    Some ("Hello world from " +:+ format_value pod_name)
  else if String.eqb event_type "MODIFIED" then
    Some ("Things have changed, " +:+ format_value pod_name)
  else if String.eqb event_type "DELETED" then
    Some ("Goodbye world from, " +:+ format_value pod_name)
  else None.

(** The name [_extract_pod_name] finds in [pod.to_dict()]. *)
Definition pod_name_of (m : V1ObjectMeta) : pyval :=
  match name m with
  | None => VNone
  | Some s => VStr s
  end.

Definition processed_line (event_type : string) (pod_name : pyval) : action :=
  Log INFO ("Processed " +:+ event_type +:+ " event for pod: "
            +:+ format_value pod_name).

(** The state [_handle_pod_event] leaves. *)
Definition handled (w : World) (event_type : string) (pod_name : pyval)
    (st : State) : State :=
  emit (processed_line event_type pod_name)
    match notification event_type pod_name with
    | Some message => sent w message st
    | None => st
    end.

(** The three kinds of lifecycle event, the type string the stream uses
    for each, and the message template of each. *)
Inductive event_kind := Created | Updated | Removed.

Definition wire_name (k : event_kind) : string :=
  match k with
  | Created => "ADDED"
  | Updated => "MODIFIED"
  | Removed => "DELETED"
  end.

Definition template (k : event_kind) (pod_name : string) : string :=
  match k with
  | Created => "Hello world from " +:+ pod_name
  | Updated => "Things have changed, " +:+ pod_name
  | Removed => "Goodbye world from, " +:+ pod_name
  end.

(** The actions of [stop], and the state it leaves. *)
Definition stop_actions (st : State) : list action :=
  [Log INFO "Stopping Pod Monitor Operator..."; SetRunning false]
  ++ (if hs_server st then [HealthShutdown] else [])
  ++ (if hs_thread st then [HealthJoin] else [])
  ++ [Log INFO "Health server stopped"].

Definition with_trace (t : list action) (r : bool) (st : State) : State :=
  {| st_namespace := st_namespace st; webhook_url := webhook_url st;
     running := r; hs_server := hs_server st;
     hs_thread := hs_thread st; opened := opened st; posts := posts st;
     trace := t |}.

Definition stopped (st : State) : State :=
  with_trace (trace st ++ stop_actions st) false st.

(** The value of the running flag after the actions [t], when it was [r]
    before. *)
Fixpoint flag_after (r : bool) (t : list action) : bool :=
  match t with
  | [] => r
  | SetRunning b :: t' => flag_after b t'
  | _ :: t' => flag_after r t'
  end.

(** The discipline of the watch loop along the actions [t], the flag being
    [r] at their start: only [False] is assigned to the flag; a POST, a
    sleep and the opening of a session happen only while the flag is true;
    every sleep lasts 5 seconds; every session is opened on the namespace
    [ns] with a timeout of 60 seconds; the health server is never started
    again, and is shut down only once the flag is false. *)
Fixpoint discipline (ns : string) (r : bool) (t : list action) : bool :=
  match t with
  | [] => true
  | SetRunning b :: t' => negb b && discipline ns b t'
  | Post _ _ _ :: t' => r && discipline ns r t'
  | Sleep s :: t' => r && Z.eqb s 5 && discipline ns r t'
  | OpenStream ns' timeout :: t' =>
      r && String.eqb ns' ns && Z.eqb timeout 60 && discipline ns r t'
  | HealthShutdown :: t' => negb r && discipline ns r t'
  | HealthStart _ :: t' => false
  | _ :: t' => discipline ns r t'
  end.

(** [st'] is [st] after the actions [d]: the trace grew by [d], the flag
    and the counters follow [d], the configuration is untouched. *)
Record evolves (st : State) (d : list action) (st' : State) : Prop := {
  ev_trace : trace st' = trace st ++ d;
  ev_namespace : st_namespace st' = st_namespace st;
  ev_url : webhook_url st' = webhook_url st;
  ev_running : running st' = flag_after (running st) d;
  ev_opened : opened st' = (opened st + length (opens d))%nat;
  ev_posts : posts st' = (posts st + length (posted d))%nat;
  ev_server : hs_server st' = hs_server st;
  ev_thread : hs_thread st' = hs_thread st
}.

(** What one event of the stream leaves behind while the flag is true. *)
Definition passes (ev : Event) : bool :=
  match metadata (ev_object ev) with
  | Some m => negb (system_pod m)
  | None => false
  end.

Definition event_message (ev : Event) : option string :=
  match metadata (ev_object ev) with
  | Some m => notification (ev_type ev) (pod_name_of m)
  | None => None
  end.

Definition received (w : World) (ev : Event) (st : State) : State :=
  match metadata (ev_object ev) with
  | Some m =>
      if system_pod m then emit (Recv ev) st
      else handled w (ev_type ev) (pod_name_of m) (emit (Recv ev) st)
  | None => emit (Recv ev) st
  end.

(** The events read and the messages posted, in the order they happened. *)
Definition io (t : list action) : list (Event + string) :=
  omap (fun a => match a with
                 | Recv ev => Some (inl ev)
                 | Post _ p _ => Some (inr (text p))
                 | _ => None
                 end) t.

(** A success status of HTTP: the class 2xx. *)
Definition success_status (status_code : Z) : bool :=
  (200 <=? status_code) && (status_code <? 300).

(** The number of times the successive values of the flag go from true to
    false. *)
Fixpoint falls (ws : list bool) : nat :=
  match ws with
  | [] => O
  | b :: ws' =>
      match ws' with
      | false :: _ => if b then S (falls ws') else falls ws'
      | _ => falls ws'
      end
  end.

(** The events read whose object is a dictionary, oldest first. *)
Definition dict_reads (t : list action) : list DictEvent :=
  omap (fun a => match a with RecvDict ev => Some ev | _ => None end) t.

(** The successive values of the flag never go from false to true. *)
Definition never_reset (ws : list bool) : Prop :=
  ∀ l1 l2, ws ≠ l1 ++ false :: true :: l2.

(** The shape of an ISO 8601 date and time in extended format:
    [YYYY-MM-DDTHH:MM:SS], with an optional fraction of six digits. *)
Definition is_digit (c : ascii) : bool :=
  (48 <=? N_of_ascii c)%N && (N_of_ascii c <=? 57)%N.

Fixpoint take_digits (n : nat) (s : string) : option string :=
  match n with
  | O => Some s
  | S n' =>
      match s with
      | String c s' => if is_digit c then take_digits n' s' else None
      | EmptyString => None
      end
  end.

Definition take_char (c : ascii) (s : string) : option string :=
  match s with
  | String c' s' => if Ascii.eqb c c' then Some s' else None
  | EmptyString => None
  end.

Inductive piece :=
| Digits (n : nat)
| Char (c : ascii).

Fixpoint parse (ps : list piece) (s : string) : option string :=
  match ps with
  | [] => Some s
  | Digits n :: ps' =>
      match take_digits n s with
      | Some s' => parse ps' s'
      | None => None
      end
  | Char c :: ps' =>
      match take_char c s with
      | Some s' => parse ps' s'
      | None => None
      end
  end.

Definition iso8601 (s : string) : bool :=
  match
    parse [Digits 4; Char "-"; Digits 2; Char "-"; Digits 2; Char "T";
           Digits 2; Char ":"; Digits 2; Char ":"; Digits 2] s
  with
  | Some EmptyString => true
  | Some rest =>
      match parse [Char "."; Digits 6] rest with
      | Some EmptyString => true
      | _ => false
      end
  | None => false
  end.

(** An action that is neither an assignment to the flag, nor a POST, nor
    the opening of a session. *)
Definition plain (a : action) : bool :=
  match a with
  | SetRunning _ | Post _ _ _ | OpenStream _ _ => false
  | _ => true
  end.

(** The actions of [send_message]. *)
Definition sent_actions (w : World) (message : string) (st : State)
  : list action :=
  [Post (webhook_url st)
     {| text := message; username := "k8s-pod-monitor";
        icon_emoji := ":robot_face:" |} 10;
   delivery_log message (webhook w (posts st))].

(** The line logged for an error of the stream. *)
Definition error_line (x : exn) : string :=
  (if is_ApiException x then "Kubernetes API error: "
   else "Unexpected error: ") +:+ exn_str x.

(** The state after [time.sleep(5)]. *)
Definition slept (w : World) (st : State) : State :=
  if stop_during_sleep w (opened st)
  then stopped (emit (Sleep 5) st)
  else emit (Sleep 5) st.

(** The state an [except] clause of the loop leaves. *)
Definition backed_off (w : World) (x : exn) (st : State) : State :=
  let st1 := emit (Log ERROR (error_line x)) st in
  if running st then slept w st1 else st1.

(** The state at the start of a session, the stream just opened. *)
Definition session_opened (st : State) : State :=
  count_open
    (emit (OpenStream (st_namespace st) 60)
       (emit (Log INFO "Starting to watch pod events...") st)).

(** The two actions that begin a session. *)
Definition session_start (st : State) : list action :=
  [Log INFO "Starting to watch pod events...";
   OpenStream (st_namespace st) 60].

(** The state in which [run] enters the loop: the health server is
    started and the flag has just been set. *)
Definition started (st : State) : State :=
  set_running true
    (emit (Log INFO "Health server started on port 8080")
       (set_health true true
          (emit (HealthStart 8080)
             (emit (Log INFO ("Starting Pod Monitor Operator for namespace: "
                              +:+ st_namespace st)) st)))).

(** The actions of [run] before the loop. *)
Definition start_actions (st : State) : list action :=
  [Log INFO ("Starting Pod Monitor Operator for namespace: "
             +:+ st_namespace st);
   HealthStart 8080;
   Log INFO "Health server started on port 8080";
   SetRunning true].

(** The actions by which the loop goes on working. *)
Definition active (a : action) : bool :=
  match a with
  | Post _ _ _ | Sleep _ | OpenStream _ _ => true
  | _ => false
  end.

(** The operator once the first lines of [__init__] have run. *)
Definition constructed (ns : string) (st : State) : State :=
  set_health false false (set_running false (set_namespace ns st)).

Definition missing_webhook : exn :=
  PyException "ValueError" "SLACK_WEBHOOK_URL environment variable is required".

(** The state the last [except] clause of [main] leaves. *)
Definition failed (x : exn) (st : State) : State :=
  emit (Log ERROR ("Fatal error: " +:+ exn_str x)) st.

Definition is_Log (a : action) : bool :=
  match a with Log _ _ => true | _ => false end.

(** ** Sample worlds *)

Definition web_1 : V1Pod :=
  {| metadata := Some {| name := Some "web-1";
                         namespace := Some "default";
                         labels := Some {[ "app" := "web" ]} |} |}.

(** A configured process whose sessions are given by [sessions]; the
    webhook accepts every message. *)
Definition sample_world (sessions : nat -> list item) : World :=
  {| environ := {[ "SLACK_WEBHOOK_URL" := "https://hooks.example/services/T0" ]};
     incluster_config := true;
     kube_config := None;
     bind := None;
     stream := sessions;
     webhook := fun _ => Responds 200;
     stop_during_sleep := fun _ => false |}.

(** Another thread stops the operator during the first session. *)
Definition brief : World := sample_world (fun _ => [StopRequest]).

(** The first session fails with an API error, the second one is stopped. *)
Definition flaky : World :=
  sample_world (fun n =>
    match n with
    | O => [Fail (ApiException "(410) Reason: Gone")]
    | S _ => [StopRequest]
    end).

(** A pod of the system namespace. *)
Definition coredns : V1Pod :=
  {| metadata := Some {| name := Some "coredns-5d78c9869d-x2x7k";
                         namespace := Some "kube-system";
                         labels := Some {[ "k8s-app" := "kube-dns" ]} |} |}.

(** A session with a new pod, then a change of a system pod, then a stop
    request. *)
Definition busy : World :=
  sample_world (fun _ =>
    [Deliver {| ev_type := "ADDED"; ev_object := web_1 |};
     Deliver {| ev_type := "MODIFIED"; ev_object := coredns |};
     StopRequest]).

(** No environment variable is set. *)
Definition unconfigured : World :=
  {| environ := ∅;
     incluster_config := true;
     kube_config := None;
     bind := None;
     stream := fun _ => [];
     webhook := fun _ => Responds 200;
     stop_during_sleep := fun _ => false |}.

(** An operator that has entered its loop. *)
Definition ready : State :=
  started (set_webhook_url "https://hooks.example/services/T0"
             (constructed "default" boot)).

(** ** Descriptions used by the further statements *)

(** Start-up fails: the webhook URL is unset or empty, or neither
    Kubernetes configuration loads, or the port of the health server
    cannot be bound. *)
Definition startup_fails (w : World) : bool :=
  falsy (environ w !! "SLACK_WEBHOOK_URL")
  || (negb (incluster_config w) && bool_decide (is_Some (kube_config w)))
  || bool_decide (is_Some (bind w)).

(** The events read, oldest first. *)
Definition reads (t : list action) : list Event :=
  omap (fun a => match a with Recv ev => Some ev | _ => None end) t.

(** A POST as [send_message] makes it: to [url], signed by the monitor,
    with a timeout of 10 seconds. *)
Definition notifier_post (url : string) (u : string) (p : payload)
    (timeout : Z) : bool :=
  String.eqb u url && String.eqb (username p) "k8s-pod-monitor"
  && String.eqb (icon_emoji p) ":robot_face:" && Z.eqb timeout 10.

(** Whether an event read is still waiting for its POST after the actions
    [t]; [armed] tells it for the start of [t]. *)
Fixpoint armed_after (armed : bool) (t : list action) : bool :=
  match t with
  | [] => armed
  | Recv _ :: t' => armed_after true t'
  | Post _ _ _ :: t' => armed_after false t'
  | _ :: t' => armed_after armed t'
  end.

(** Along [t] every POST is a [notifier_post] to [url] and answers an
    event read before it, which no other POST has answered. *)
Fixpoint paired (url : string) (armed : bool) (t : list action) : bool :=
  match t with
  | [] => true
  | Recv _ :: t' => paired url true t'
  | Post u p timeout :: t' =>
      armed && notifier_post url u p timeout && paired url false t'
  | _ :: t' => paired url armed t'
  end.

(** The local configuration is missing as well, a webhook URL is set. *)
Definition no_cluster : World :=
  {| environ := {[ "SLACK_WEBHOOK_URL" := "https://hooks.example/services/T0" ]};
     incluster_config := false;
     kube_config := Some "Invalid kube-config file. No configuration found.";
     bind := None;
     stream := fun _ => [];
     webhook := fun _ => Responds 200;
     stop_during_sleep := fun _ => false |}.

(** Every session brings one new pod and ends on its timeout. *)
Definition steady : World :=
  sample_world (fun _ => [Deliver {| ev_type := "ADDED"; ev_object := web_1 |}]).

(** Every session fails at once with a transport error. *)
Definition failing : World :=
  sample_world (fun _ =>
    [Fail (PyException "ProtocolError" "Connection broken")]).

(** A [BOOKMARK] event as the watch yields it: its object is the
    dictionary received, which carries a resource version and no name. *)
Definition bookmark : DictEvent :=
  {| de_type := "BOOKMARK";
     de_object := {| pd_metadata := Val {| md_name := Missing |} |} |}.

(** A bookmark between two events of [web-1]. *)
Definition bookmarked : World :=
  sample_world (fun _ =>
    [Deliver {| ev_type := "ADDED"; ev_object := web_1 |};
     DeliverDict bookmark;
     Deliver {| ev_type := "DELETED"; ev_object := web_1 |}]).

(** The webhook accepts every message with status 204, no content. *)
Definition no_content : World :=
  {| environ := {[ "SLACK_WEBHOOK_URL" := "https://hooks.example/services/T0" ]};
     incluster_config := true;
     kube_config := None;
     bind := None;
     stream := fun _ => [];
     webhook := fun _ => Responds 204;
     stop_during_sleep := fun _ => false |}.

(** An interrupt after the first event of the first session. *)
Definition interrupted : World :=
  sample_world (fun _ =>
    [Deliver {| ev_type := "ADDED"; ev_object := web_1 |};
     Fail KeyboardInterrupt]).

(** A stop request after the first event; two more events follow. *)
Definition late : World :=
  sample_world (fun _ =>
    [Deliver {| ev_type := "ADDED"; ev_object := web_1 |};
     StopRequest;
     Deliver {| ev_type := "MODIFIED"; ev_object := web_1 |};
     Deliver {| ev_type := "DELETED"; ev_object := web_1 |}]).

Definition is_Sleep (a : action) : bool :=
  match a with Sleep _ => true | _ => false end.

(** * Properties *)

(** ** The pod filter *)

(** [str.startswith]: [String.prefix p s] holds exactly when [s] is [p]
    followed by something. *)
Lemma prefix_startswith (p s : string) :
  String.prefix p s = true ↔ ∃ rest, s = p +:+ rest.
Proof.
  revert s. induction p as [|a p IH]; intros [|b s]; simpl.
  - split; [intros _; by exists "" | done].
  - split; [intros _; by exists (String b s) | done].
  - split; [done | intros [rest H]; discriminate H].
  - destruct (ascii_dec a b) as [->|Hne].
    + rewrite IH. split; intros [rest H]; exists rest.
      * by rewrite H.
      * by injection H.
    + split; [done | intros [rest H]; injection H; congruence].
Qed.

Lemma or_empty_lookup (x : option (gmap string string)) (k : string) :
  is_Some (or_empty x !! k) ↔ ∃ l, x = Some l ∧ is_Some (l !! k).
Proof.
  destruct x as [l|]; simpl.
  - destruct (decide (l = ∅)) as [->|_].
    + split; [intros [v H]; by rewrite lookup_empty in H | ].
      intros (l & [= <-] & H). done.
    + split; [intros H; by exists l | intros (l' & [= <-] & H); done].
  - split; [intros [v H]; by rewrite lookup_empty in H | intros (l & H & _); done].
Qed.

Lemma any_key_spec (l : gmap string string) (f : string -> bool) :
  existsb f (map_to_list l).*1 = true ↔ ∃ k, is_Some (l !! k) ∧ f k = true.
Proof.
  rewrite existsb_exists. split.
  - intros (k & Hin & Hf). exists k. split; [|done].
    apply list_elem_of_In, list_elem_of_fmap in Hin as ([k' v] & -> & Hkv).
    apply elem_of_map_to_list in Hkv. by exists v.
  - intros (k & [v Hv] & Hf). exists k. split; [|done].
    apply list_elem_of_In, list_elem_of_fmap. exists (k, v). split; [done|].
    by apply elem_of_map_to_list.
Qed.

Lemma should_ignore_pod_eq (m : V1ObjectMeta) (st : State) :
  _should_ignore_pod {| metadata := Some m |} st = (Ok (system_pod m), st).
Proof.
  unfold _should_ignore_pod, system_pod; simpl.
  destruct (bool_decide _); [done|]. by destruct (existsb _ _).
Qed.

(** C3. For every pod with metadata, [_should_ignore_pod] returns, changes
    nothing, and its answer is true exactly when the namespace is
    [kube-system] or some label key starts with [k8s-app]; with no label
    map ([None]) or an empty one it still returns, and its answer is the
    namespace test alone. *)
Theorem should_ignore_pod_spec (m : V1ObjectMeta) (st : State) :
  ∃ b : bool,
    _should_ignore_pod {| metadata := Some m |} st = (Ok b, st)
    ∧ (b = true ↔ namespace m = Some "kube-system" ∨ has_system_label m)
    ∧ (labels m = None ∨ labels m = Some ∅ →
       b = bool_decide (namespace m = Some "kube-system")).
Proof.
  unfold _should_ignore_pod; simpl.
  destruct (bool_decide_reflect (namespace m = Some "kube-system")) as [Hns|Hns].
  - exists true. split; [done|]. split; [|done]. split; [by left | done].
  - destruct (existsb _ _) eqn:Hany.
    + exists true. split; [done|]. split.
      * split; [intros _; right | done].
        apply any_key_spec in Hany as (k & Hk & Hp).
        apply or_empty_lookup in Hk as (l & Hl & Hk).
        exists l, k. split; [done|]. split; [done|].
        by apply prefix_startswith.
      * intros [H|H]; rewrite H in Hany; simpl in Hany.
        -- by rewrite map_to_list_empty in Hany.
        -- rewrite decide_True in Hany by done.
           by rewrite map_to_list_empty in Hany.
    + exists false. split; [done|]. split; [|done].
      split; [done|]. intros [H|(l & k & Hl & Hk & Hp)]; [done|].
      apply not_true_iff_false in Hany. exfalso. apply Hany.
      apply any_key_spec. exists k. split.
      * apply or_empty_lookup. by exists l.
      * by apply prefix_startswith.
Qed.

Example ignore_kube_system :
  fst (_should_ignore_pod
         {| metadata := Some {| name := Some "coredns-1";
                                namespace := Some "kube-system";
                                labels := None |} |} boot) = Ok true.
Proof. reflexivity. Qed.

Example ignore_system_label :
  fst (_should_ignore_pod
         {| metadata := Some {| name := Some "dns";
                                namespace := Some "default";
                                labels := Some {[ "k8s-app-name" := "dns" ]} |} |}
         boot) = Ok true.
Proof. vm_compute. reflexivity. Qed.

Example keep_user_pod :
  fst (_should_ignore_pod
         {| metadata := Some {| name := Some "web-1";
                                namespace := Some "default";
                                labels := Some {[ "app" := "web" ]} |} |}
         boot) = Ok false.
Proof. vm_compute. reflexivity. Qed.

(** ** The notifier *)

Lemma send_message_eq (w : World) (message : string) (st : State) :
  send_message w message st
  = (Ok (delivered (webhook w (posts st))), sent w message st).
Proof.
  unfold send_message, sent, try_except, requests_post, bind_M, get, act,
    log, ret, raise, delivered, delivery_log; simpl.
  destruct (webhook w (posts st)) as [c|e]; simpl; [|reflexivity].
  destruct (Z.eqb c 200); reflexivity.
Qed.

Lemma posted_app (t1 t2 : list action) :
  posted (t1 ++ t2) = posted t1 ++ posted t2.
Proof. apply omap_app. Qed.

Lemma posted_sent (w : World) (message : string) (st : State) :
  posted (trace (sent w message st)) = posted (trace st) ++ [message].
Proof.
  unfold sent; cbn [trace emit count_post]. rewrite !posted_app.
  assert (posted [delivery_log message (webhook w (posts st))] = []) as ->.
  { unfold delivery_log. destruct (webhook w (posts st)) as [c|e]; [|done].
    by destruct (Z.eqb c 200). }
  by rewrite app_nil_r.
Qed.

(** C4, as the code has it.  Whatever the message and whatever the
    webhook does, [send_message] returns (it never raises): [True]
    exactly when the webhook answers with status 200, [False] on any
    other status, the other statuses of the class 2xx included, and on a
    transport failure.  It makes a single POST of the message, no retry,
    and leaves the running flag as it was, so the loop goes on with the
    next event. *)
Theorem send_message_delivery (w : World) (message : string) (st : State) :
  ∃ (b : bool) (st' : State),
    send_message w message st = (Ok b, st')
    ∧ (b = true ↔ webhook w (posts st) = Responds 200)
    ∧ (∀ c, webhook w (posts st) = Responds c → c ≠ 200 → b = false)
    ∧ (∀ e, webhook w (posts st) = TransportFailure e → b = false)
    ∧ posted (trace st') = posted (trace st) ++ [message]
    ∧ posts st' = S (posts st)
    ∧ running st' = running st.
Proof.
  exists (delivered (webhook w (posts st))), (sent w message st).
  split; [apply send_message_eq|].
  split; [|split; [|split; [|split; [apply posted_sent | done]]]].
  - unfold delivered. destruct (webhook w (posts st)) as [c|e]; [|done].
    rewrite Z.eqb_eq. split; [by intros -> | by intros [= ->]].
  - intros c -> Hc. simpl. by apply Z.eqb_neq.
  - by intros e ->.
Qed.

Example server_error_not_delivered (w : World) (st : State) :
  webhook w (posts st) = Responds 500 →
  fst (send_message w "Hello world from web-1" st) = Ok false.
Proof. intros H. by rewrite send_message_eq, H. Qed.

Example no_content_not_delivered (w : World) (st : State) :
  webhook w (posts st) = Responds 204 →
  fst (send_message w "Hello world from web-1" st) = Ok false.
Proof. intros H. by rewrite send_message_eq, H. Qed.

(** ** The event handler *)

Lemma extract_pod_name_eq (pod : V1Pod) (m : V1ObjectMeta) (st : State) :
  metadata pod = Some m →
  _extract_pod_name (to_dict pod) st = (Ok (pod_name_of m), st).
Proof.
  intros H. unfold _extract_pod_name, to_dict, pod_name_of. rewrite H; simpl.
  by destruct (name m).
Qed.

Lemma handle_pod_event_eq (w : World) (event_type : string) (pod : V1Pod)
    (m : V1ObjectMeta) (st : State) :
  metadata pod = Some m →
  _handle_pod_event w event_type (to_dict pod) st
  = (Ok tt, handled w event_type (pod_name_of m) st).
Proof.
  intros H. unfold _handle_pod_event, handled, notification, processed_line.
  unfold bind_M at 1. rewrite (extract_pod_name_eq _ _ _ H).
  unfold bind_M, log, act, ret.
  destruct (String.eqb event_type "ADDED");
    [by rewrite send_message_eq|].
  destruct (String.eqb event_type "MODIFIED");
    [by rewrite send_message_eq|].
  destruct (String.eqb event_type "DELETED");
    [by rewrite send_message_eq|].
  reflexivity.
Qed.

Lemma posted_handled (w : World) (event_type : string) (pod_name : pyval)
    (st : State) :
  posted (trace (handled w event_type pod_name st))
  = posted (trace st) ++ option_list (notification event_type pod_name).
Proof.
  unfold handled; cbn [trace emit]. rewrite posted_app, app_nil_r.
  destruct (notification event_type pod_name); simpl.
  - apply posted_sent.
  - by rewrite app_nil_r.
Qed.

Lemma notification_template (k : event_kind) (pod_name : string) :
  notification (wire_name k) (VStr pod_name) = Some (template k pod_name).
Proof. by destruct k. Qed.

(** C5. For each event kind and each pod name, the handler posts exactly
    one message, the template of the kind with the name in it: for
    [web-1], [Hello world from web-1], [Things have changed, web-1] and
    [Goodbye world from, web-1]. *)
Theorem message_is_template (w : World) (k : event_kind) (n : string)
    (ns : option string) (l : option (gmap string string)) (st : State) :
  (∃ st',
     _handle_pod_event w (wire_name k)
       (to_dict {| metadata := Some {| name := Some n; namespace := ns;
                                       labels := l |} |}) st
     = (Ok tt, st')
     ∧ posted (trace st') = posted (trace st) ++ [template k n])
  ∧ template Created "web-1" = "Hello world from web-1"
  ∧ template Updated "web-1" = "Things have changed, web-1"
  ∧ template Removed "web-1" = "Goodbye world from, web-1".
Proof.
  split; [|done].
  eexists. split; [by apply handle_pod_event_eq|].
  rewrite posted_handled. unfold pod_name_of; simpl.
  by rewrite notification_template.
Qed.

Example created_web_1 (w : World) :
  posted (trace (snd (_handle_pod_event w "ADDED"
    (to_dict {| metadata := Some {| name := Some "web-1";
                                    namespace := Some "default";
                                    labels := None |} |}) boot)))
  = ["Hello world from web-1"].
Proof.
  erewrite handle_pod_event_eq by reflexivity.
  cbn [snd]. by rewrite posted_handled.
Qed.

(** C10, as the code has it.  For an event type that is none of [ADDED],
    [MODIFIED], [DELETED] the handler, given a dictionary whose metadata
    is not [None], returns normally, makes no POST at all and only logs
    the [Processed ...] line. *)
Theorem unknown_event_dropped (w : World) (event_type : string)
    (pod : pod_dict) (st : State) :
  event_type ≠ "ADDED" → event_type ≠ "MODIFIED" → event_type ≠ "DELETED" →
  pd_metadata pod ≠ PyNone →
  ∃ pod_name,
    _extract_pod_name pod st = (Ok pod_name, st)
    ∧ _handle_pod_event w event_type pod st
      = (Ok tt,
         emit (Log INFO ("Processed " +:+ event_type +:+ " event for pod: "
                         +:+ format_value pod_name)) st)
    ∧ posted (trace (snd (_handle_pod_event w event_type pod st)))
      = posted (trace st)
    ∧ posts (snd (_handle_pod_event w event_type pod st)) = posts st.
Proof.
  intros H1 H2 H3 Hm.
  apply String.eqb_neq in H1, H2, H3.
  assert (∀ pod_name,
            _extract_pod_name pod st = (Ok pod_name, st) →
            _handle_pod_event w event_type pod st
            = (Ok tt,
               emit (Log INFO ("Processed " +:+ event_type
                               +:+ " event for pod: "
                               +:+ format_value pod_name)) st)) as Hh.
  { intros pod_name He. unfold _handle_pod_event.
    unfold bind_M at 1. rewrite He. by rewrite H1, H2, H3. }
  assert (∃ pod_name, _extract_pod_name pod st = (Ok pod_name, st))
    as [pod_name He].
  { unfold _extract_pod_name.
    destruct (pd_metadata pod) as [| |m]; [by eexists | done |].
    destruct (md_name m); by eexists. }
  exists pod_name. split; [exact He|]. rewrite (Hh pod_name He).
  split; [done|]. cbn [snd trace emit posts].
  split; [|done]. rewrite posted_app. apply app_nil_r.
Qed.

(** ** Traces: the running flag and the discipline of the loop *)

Lemma flag_after_app (r : bool) (d1 d2 : list action) :
  flag_after r (d1 ++ d2) = flag_after (flag_after r d1) d2.
Proof.
  revert r. induction d1 as [|a d1 IH]; intros r; [done|].
  destruct a; simpl; apply IH.
Qed.

Lemma discipline_app (ns : string) (r : bool) (d1 d2 : list action) :
  discipline ns r (d1 ++ d2)
  = discipline ns r d1 && discipline ns (flag_after r d1) d2.
Proof.
  revert r. induction d1 as [|a d1 IH]; intros r; [done|].
  destruct a; simpl; rewrite ?IH, ?andb_assoc; done.
Qed.

Lemma discipline_app_intro (ns : string) (r : bool) (d1 d2 : list action) :
  discipline ns r d1 = true →
  discipline ns (flag_after r d1) d2 = true →
  discipline ns r (d1 ++ d2) = true.
Proof. intros H1 H2. by rewrite discipline_app, H1, H2. Qed.

Lemma opens_app (t1 t2 : list action) :
  opens (t1 ++ t2) = opens t1 ++ opens t2.
Proof. apply omap_app. Qed.

Lemma sleeps_app (t1 t2 : list action) :
  sleeps (t1 ++ t2) = sleeps t1 ++ sleeps t2.
Proof. apply omap_app. Qed.

Lemma flag_writes_app (t1 t2 : list action) :
  flag_writes (t1 ++ t2) = flag_writes t1 ++ flag_writes t2.
Proof. apply omap_app. Qed.

Lemma errors_app (t1 t2 : list action) :
  errors (t1 ++ t2) = errors t1 ++ errors t2.
Proof. apply omap_app. Qed.

Lemma io_app (t1 t2 : list action) : io (t1 ++ t2) = io t1 ++ io t2.
Proof. apply omap_app. Qed.

Lemma evolves_refl (st : State) : evolves st [] st.
Proof.
  split; simpl; rewrite ?app_nil_r, ?Nat.add_0_r; done.
Qed.

Lemma evolves_trans (st1 st2 st3 : State) (d1 d2 : list action) :
  evolves st1 d1 st2 → evolves st2 d2 st3 → evolves st1 (d1 ++ d2) st3.
Proof.
  intros [] []. split; try congruence.
  - rewrite app_assoc. congruence.
  - rewrite flag_after_app. congruence.
  - rewrite opens_app, length_app. lia.
  - rewrite posted_app, length_app. lia.
Qed.

Lemma evolves_emit (a : action) (st : State) :
  plain a = true → evolves st [a] (emit a st).
Proof.
  intros H. destruct a; try discriminate H;
    split; simpl; rewrite ?Nat.add_0_r; done.
Qed.

Lemma delivery_log_plain (message : string) (o : webhook_outcome) :
  ∃ l s, delivery_log message o = Log l s.
Proof.
  destruct o as [c|e]; simpl; [destruct (Z.eqb c 200)|]; eauto.
Qed.

Lemma evolves_sent (w : World) (message : string) (st : State) :
  evolves st (sent_actions w message st) (sent w message st).
Proof.
  unfold sent, sent_actions.
  destruct (delivery_log_plain message (webhook w (posts st))) as (l & s & ->).
  split; simpl; rewrite <- ?app_assoc, ?Nat.add_0_r; try done; lia.
Qed.

Lemma discipline_sent (w : World) (message : string) (st : State) (ns : string) :
  discipline ns true (sent_actions w message st) = true.
Proof.
  unfold sent_actions.
  by destruct (delivery_log_plain message (webhook w (posts st))) as (l & s & ->).
Qed.

Lemma flag_after_sent (w : World) (message : string) (st : State) (r : bool) :
  flag_after r (sent_actions w message st) = r.
Proof.
  unfold sent_actions.
  by destruct (delivery_log_plain message (webhook w (posts st))) as (l & s & ->).
Qed.

Lemma stop_eq (st : State) : stop st = (Ok tt, stopped st).
Proof.
  destruct st as [ns url r [|] [|] o p t];
    unfold stop, health_stop, stopped, stop_actions, with_trace,
      bind_M, log, act, get, ret, emit, set_running; simpl;
    rewrite <- ?app_assoc; reflexivity.
Qed.

Lemma evolves_stopped (st : State) : evolves st (stop_actions st) (stopped st).
Proof.
  unfold stopped, stop_actions.
  split; simpl; try done; destruct (hs_server st), (hs_thread st); simpl; lia.
Qed.

Lemma discipline_stop (ns : string) (r : bool) (st : State) :
  discipline ns r (stop_actions st) = true.
Proof.
  unfold stop_actions. by destruct (hs_server st), (hs_thread st).
Qed.

Lemma flag_after_stop (r : bool) (st : State) :
  flag_after r (stop_actions st) = false.
Proof.
  unfold stop_actions. by destruct (hs_server st), (hs_thread st).
Qed.

(** ** One watch session *)

Lemma for_events_nil (w : World) (st : State) :
  for_events w [] st = (Ok tt, st).
Proof. reflexivity. Qed.

Lemma for_events_stop_request (w : World) (rest : list item) (st : State) :
  for_events w (StopRequest :: rest) st = for_events w rest (stopped st).
Proof. cbn [for_events]. unfold bind_M. by rewrite stop_eq. Qed.

Lemma for_events_fail (w : World) (x : exn) (rest : list item) (st : State) :
  for_events w (Fail x :: rest) st = (Raise x, st).
Proof. reflexivity. Qed.

Lemma for_events_break (w : World) (ev : Event) (rest : list item)
    (st : State) :
  running st = false →
  for_events w (Deliver ev :: rest) st = (Ok tt, emit (Recv ev) st).
Proof.
  intros H. cbn [for_events]. unfold bind_M, act, get; simpl. by rewrite H.
Qed.

Lemma for_events_dict_break (w : World) (ev : DictEvent) (rest : list item)
    (st : State) :
  running st = false →
  for_events w (DeliverDict ev :: rest) st = (Ok tt, emit (RecvDict ev) st).
Proof.
  intros H. cbn [for_events]. unfold bind_M, act, get; simpl. by rewrite H.
Qed.

Lemma for_events_dict (w : World) (ev : DictEvent) (rest : list item)
    (st : State) :
  running st = true →
  for_events w (DeliverDict ev :: rest) st
  = (Raise (PyException "AttributeError"
              "'dict' object has no attribute 'metadata'"),
     emit (RecvDict ev) st).
Proof.
  intros H. cbn [for_events]. unfold bind_M, act, get; simpl. by rewrite H.
Qed.

Lemma for_events_no_metadata (w : World) (ev : Event) (rest : list item)
    (st : State) :
  running st = true → metadata (ev_object ev) = None →
  for_events w (Deliver ev :: rest) st
  = (Raise (PyException "AttributeError"
              "'NoneType' object has no attribute 'namespace'"),
     emit (Recv ev) st).
Proof.
  intros Hr Hm. cbn [for_events].
  unfold bind_M, act, get, _should_ignore_pod; simpl. by rewrite Hr, Hm.
Qed.

Lemma for_events_deliver (w : World) (ev : Event) (m : V1ObjectMeta)
    (rest : list item) (st : State) :
  running st = true → metadata (ev_object ev) = Some m →
  for_events w (Deliver ev :: rest) st = for_events w rest (received w ev st).
Proof.
  intros Hr Hm. cbn [for_events]. unfold received. rewrite Hm.
  unfold bind_M at 1. unfold act at 1. unfold bind_M at 1. unfold get at 1.
  cbn [running emit]. rewrite Hr. cbn [negb]. unfold bind_M at 1.
  destruct (ev_object ev) as [om]. simpl in Hm. subst om.
  rewrite should_ignore_pod_eq.
  destruct (system_pod m); [done|].
  unfold bind_M at 1.
  by rewrite (handle_pod_event_eq w (ev_type ev) {| metadata := Some m |} m
                _ eq_refl).
Qed.

(** What the handling of one event adds to the trace. *)
Lemma received_evolves (w : World) (ev : Event) (st : State) (ns : string) :
  ∃ d, evolves st d (received w ev st)
       ∧ discipline ns true d = true
       ∧ flag_after true d = true
       ∧ io d = inl ev :: (if passes ev
                           then option_list (inr <$> event_message ev)
                           else [])
       ∧ sleeps d = [] ∧ opens d = [] ∧ flag_writes d = [].
Proof.
  unfold received, passes, event_message.
  destruct (metadata (ev_object ev)) as [m|].
  2:{ exists [Recv ev]. by split; [apply evolves_emit|]. }
  destruct (system_pod m); simpl.
  { exists [Recv ev]. by split; [apply evolves_emit|]. }
  unfold handled.
  destruct (notification (ev_type ev) (pod_name_of m)) as [message|]; simpl.
  - exists ([Recv ev] ++ sent_actions w message (emit (Recv ev) st)
            ++ [processed_line (ev_type ev) (pod_name_of m)]).
    split.
    { eapply evolves_trans; [by apply evolves_emit|].
      eapply evolves_trans; [apply evolves_sent | by apply evolves_emit]. }
    unfold sent_actions.
    destruct (delivery_log_plain message
                (webhook w (posts (emit (Recv ev) st)))) as (l & s & ->).
    by destruct l.
  - exists ([Recv ev] ++ [processed_line (ev_type ev) (pod_name_of m)]).
    split; [|done].
    eapply evolves_trans; by apply evolves_emit.
Qed.

Lemma evolves_running (st st' : State) (d : list action) :
  evolves st d st' → running st = true → flag_after true d = true →
  running st' = true.
Proof. intros [] Hr Hf. congruence. Qed.

(** Whatever a session brings, the [for] loop ends (it returns or raises)
    and keeps the discipline; it neither sleeps nor opens a session. *)
Lemma for_events_behaves (w : World) (ns : string) (items : list item)
    (st : State) :
  ∃ d, evolves st d (snd (for_events w items st))
       ∧ discipline ns (running st) d = true
       ∧ fst (for_events w items st) ≠ Pending
       ∧ sleeps d = [] ∧ opens d = [].
Proof.
  revert st. induction items as [|[ev|x| |dev] rest IH]; intros st.
  - exists []. by split; [apply evolves_refl|].
  - destruct (running st) eqn:Hr.
    + destruct (metadata (ev_object ev)) as [m|] eqn:Hm.
      * rewrite (for_events_deliver w ev m rest st Hr Hm).
        destruct (received_evolves w ev st ns)
          as (d1 & E1 & D1 & F1 & _ & S1 & O1 & _).
        destruct (IH (received w ev st)) as (d2 & E2 & D2 & P2 & S2 & O2).
        rewrite (evolves_running _ _ _ E1 Hr F1) in D2.
        exists (d1 ++ d2). split; [by eapply evolves_trans|].
        split; [apply discipline_app_intro; by rewrite ?F1|].
        split; [done|].
        by rewrite sleeps_app, opens_app, S1, S2, O1, O2.
      * rewrite (for_events_no_metadata w ev rest st Hr Hm).
        exists [Recv ev]. by split; [apply evolves_emit|].
    + rewrite (for_events_break w ev rest st Hr).
      exists [Recv ev]. by split; [apply evolves_emit|].
  - rewrite for_events_fail. exists []. by split; [apply evolves_refl|].
  - rewrite for_events_stop_request.
    destruct (IH (stopped st)) as (d2 & E2 & D2 & P2 & S2 & O2).
    exists (stop_actions st ++ d2).
    split; [eapply evolves_trans; [apply evolves_stopped | done]|].
    split.
    { apply discipline_app_intro; [apply discipline_stop|].
      by rewrite flag_after_stop. }
    split; [done|].
    rewrite sleeps_app, opens_app, S2, O2.
    unfold stop_actions. by destruct (hs_server st), (hs_thread st).
  - destruct (running st) eqn:Hr.
    + rewrite (for_events_dict w dev rest st Hr).
      exists [RecvDict dev]. by split; [apply evolves_emit|].
    + rewrite (for_events_dict_break w dev rest st Hr).
      exists [RecvDict dev]. by split; [apply evolves_emit|].
Qed.

(** The events of a session that come with metadata are handled one
    after the other as long as nothing stops the loop. *)
Lemma for_events_prefix (w : World) (evs : list Event) (rest : list item)
    (st : State) :
  running st = true →
  Forall (fun ev => is_Some (metadata (ev_object ev))) evs →
  ∃ d, let st' := fold_left (fun s ev => received w ev s) evs st in
       for_events w ((Deliver <$> evs) ++ rest) st = for_events w rest st'
       ∧ evolves st d st'
       ∧ running st' = true
       ∧ io d = flat_map (fun ev =>
                  inl ev :: (if passes ev
                             then option_list (inr <$> event_message ev)
                             else [])) evs
       ∧ sleeps d = [] ∧ opens d = [] ∧ flag_writes d = [].
Proof.
  intros Hr Hall. revert st Hr.
  induction Hall as [|ev evs [m Hm] _ IH]; intros st Hr.
  - exists []. by split; [|split; [apply evolves_refl|]].
  - destruct (received_evolves w ev st "")
      as (d1 & E1 & _ & F1 & I1 & S1 & O1 & W1).
    pose proof (evolves_running _ _ _ E1 Hr F1) as Hr1.
    destruct (IH _ Hr1) as (d2 & Heq & E2 & Hr2 & I2 & S2 & O2 & W2).
    exists (d1 ++ d2). cbn [fold_left fmap list_fmap app].
    rewrite (for_events_deliver w ev m _ st Hr Hm).
    split; [apply Heq|]. split; [by eapply evolves_trans|].
    split; [done|].
    rewrite io_app, sleeps_app, opens_app, flag_writes_app.
    rewrite I1, I2, S1, S2, O1, O2, W1, W2. cbn [flat_map].
    destruct (passes ev); [|done].
    by destruct (event_message ev).
Qed.

Lemma posted_io (t : list action) :
  posted t = omap (fun x => match x with
                            | inl _ => None
                            | inr s => Some s
                            end) (io t).
Proof.
  induction t as [|a t IH]; [done|].
  destruct a; simpl; rewrite ?IH; done.
Qed.

Lemma posted_flat_map (evs : list Event) :
  omap (fun x : Event + string =>
          match x with inl _ => None | inr s => Some s end)
    (flat_map (fun ev =>
       inl ev :: (if passes ev
                  then option_list (inr <$> event_message ev)
                  else [])) evs)
  = omap event_message (List.filter passes evs).
Proof.
  induction evs as [|ev evs IH]; [done|].
  cbn [flat_map List.filter]. rewrite omap_app, IH.
  destruct (passes ev); [|reflexivity].
  cbn. by destruct (event_message ev).
Qed.

(** C2. A finite sequence of events, handled while the running flag stays
    true: the loop reads them to the end; the messages posted are those
    of the events the filter lets pass, in the order of the events; every
    event is followed by its own POST, if it has one, before the next one
    is read, so it makes at most one POST; the flag is still true
    afterwards.  For the three known kinds the message is the template,
    and then every event that passes the filter has its POST. *)
Theorem notifications_in_order (w : World) (evs : list Event) (st : State) :
  running st = true →
  Forall (fun ev => is_Some (metadata (ev_object ev))) evs →
  ∃ st',
    for_events w (Deliver <$> evs) st = (Ok tt, st')
    ∧ running st' = true
    ∧ posted (trace st')
      = posted (trace st) ++ omap event_message (List.filter passes evs)
    ∧ io (trace st')
      = io (trace st)
        ++ flat_map (fun ev =>
             inl ev :: (if passes ev
                        then option_list (inr <$> event_message ev)
                        else [])) evs
    ∧ (∀ ev m k n,
         metadata (ev_object ev) = Some m → name m = Some n →
         ev_type ev = wire_name k →
         event_message ev = Some (template k n))
    ∧ (Forall (fun ev => ∃ k, ev_type ev = wire_name k) evs →
       length (omap event_message (List.filter passes evs))
       = length (List.filter passes evs)).
Proof.
  intros Hr Hall.
  destruct (for_events_prefix w evs [] st Hr Hall)
    as (d & Heq & E & Hr' & I & _).
  rewrite app_nil_r in Heq. cbn zeta in *.
  eexists. split; [exact Heq|]. split; [exact Hr'|].
  rewrite (ev_trace _ _ _ E), posted_app, io_app, I.
  split; [|split; [done|split]].
  - f_equal. rewrite posted_io, I. apply posted_flat_map.
  - intros ev m k n Hm Hn Hk. unfold event_message, pod_name_of.
    rewrite Hm, Hn, Hk. apply notification_template.
  - clear -Hall. intros Hk.
    induction Hall as [|ev evs [m Hm] _ IH]; [done|].
    apply Forall_cons in Hk as [[k Hk] Hks].
    cbn [List.filter]. destruct (passes ev); [|by apply IH].
    assert (∃ message, event_message ev = Some message) as [message Hmsg].
    { unfold event_message. rewrite Hm, Hk. destruct k; by eexists. }
    cbn. rewrite Hmsg. cbn. by rewrite IH.
Qed.

(** ** The watch loop *)

Lemma time_sleep_eq (w : World) (st : State) :
  time_sleep w 5 st = (Ok tt, slept w st).
Proof.
  unfold time_sleep, slept, bind_M, act, get; simpl.
  destruct (stop_during_sleep w (opened st)); [|done].
  by rewrite stop_eq.
Qed.

Lemma on_stream_error_eq (w : World) (x : exn) :
  is_Exception x = true →
  ∃ h, on_stream_error w x = Some h
       ∧ ∀ st, h st = (Ok tt, backed_off w x st).
Proof.
  intros Hx. unfold on_stream_error, backed_off, error_line.
  destruct (is_ApiException x); [|rewrite Hx];
    (eexists; split; [reflexivity|]; intros st;
     unfold bind_M, log, act, get, ret; simpl;
     destruct (running st); [apply time_sleep_eq | done]).
Qed.

Lemma on_stream_error_interrupt (w : World) (x : exn) :
  is_Exception x = false → on_stream_error w x = None.
Proof. by destruct x. Qed.

Lemma loop_body_eq (w : World) (st : State) :
  loop_body w st
  = match for_events w (stream w (opened st)) (session_opened st) with
    | (Raise x, st1) =>
        if is_Exception x then (Ok tt, backed_off w x st1)
        else (Raise x, st1)
    | r => r
    end.
Proof.
  unfold loop_body, try_except, session_opened.
  unfold bind_M at 1. unfold log at 1. unfold act at 1.
  unfold bind_M at 1. unfold get at 1.
  unfold bind_M at 1. unfold get at 1.
  unfold bind_M at 1. unfold act at 1.
  unfold bind_M at 1. unfold act at 1.
  cbn [st_namespace opened emit].
  destruct (for_events w _ _) as [[u|x|] st1]; [done| |done].
  destruct (is_Exception x) eqn:Hx.
  - destruct (on_stream_error_eq w x Hx) as (h & -> & Hh). apply Hh.
  - by rewrite on_stream_error_interrupt.
Qed.

Lemma evolves_session_opened (st : State) :
  evolves st [Log INFO "Starting to watch pod events...";
              OpenStream (st_namespace st) 60] (session_opened st).
Proof. split; simpl; rewrite <- ?app_assoc; try done; lia. Qed.

Lemma slept_evolves (w : World) (st : State) (ns : string) :
  ∃ d, evolves st (Sleep 5 :: d) (slept w st)
       ∧ discipline ns true d = true ∧ opens d = [] ∧ sleeps d = []
       ∧ errors d = [].
Proof.
  unfold slept. destruct (stop_during_sleep w (opened st)).
  - exists (stop_actions (emit (Sleep 5) st)). split.
    + eapply (evolves_trans _ _ _ [Sleep 5]); [by apply evolves_emit|].
      apply evolves_stopped.
    + split; [apply discipline_stop|].
      unfold stop_actions; simpl. by destruct (hs_server st), (hs_thread st).
  - exists []. split; [by apply evolves_emit | done].
Qed.

Lemma backed_off_evolves (w : World) (x : exn) (st : State) (ns : string) :
  ∃ d, evolves st d (backed_off w x st)
       ∧ discipline ns (running st) d = true ∧ opens d = []
       ∧ errors d = [error_line x]
       ∧ sleeps d = if running st then [5] else [].
Proof.
  unfold backed_off. destruct (running st) eqn:Hr.
  - destruct (slept_evolves w (emit (Log ERROR (error_line x)) st) ns)
      as (d & E & D & O & S & R).
    exists ([Log ERROR (error_line x)] ++ Sleep 5 :: d). split.
    + eapply evolves_trans; [by apply evolves_emit | done].
    + rewrite errors_app, sleeps_app, opens_app.
      change (errors (Sleep 5 :: d)) with (errors d).
      change (sleeps (Sleep 5 :: d)) with (5 :: sleeps d).
      change (opens (Sleep 5 :: d)) with (opens d).
      rewrite R, S, O. simpl. by rewrite D.
  - exists [Log ERROR (error_line x)]. split; [by apply evolves_emit | done].
Qed.

(** One iteration of the loop, entered with the flag true: it ends, it
    opens exactly one session, at its start, it keeps the discipline, and
    no exception of class [Exception] leaves it. *)
Lemma loop_body_behaves (w : World) (st : State) :
  running st = true →
  ∃ d, evolves st (session_start st ++ d) (snd (loop_body w st))
       ∧ discipline (st_namespace st) true (session_start st ++ d) = true
       ∧ fst (loop_body w st) ≠ Pending
       ∧ (∀ x, fst (loop_body w st) = Raise x → is_Exception x = false)
       ∧ opens d = [].
Proof.
  intros Hr. rewrite loop_body_eq.
  pose proof (evolves_session_opened st) as E0. fold (session_start st) in E0.
  destruct (for_events_behaves w (st_namespace st) (stream w (opened st))
              (session_opened st)) as (d1 & E1 & D1 & P1 & S1 & O1).
  change (running (session_opened st)) with (running st) in D1.
  rewrite Hr in D1.
  assert (discipline (st_namespace st) true (session_start st ++ d1) = true)
    as D01.
  { simpl. by rewrite String.eqb_refl, D1. }
  destruct (for_events w _ _) as [[u|x|] st1]; simpl in E1, P1; [| |done].
  - exists d1. split; [by eapply evolves_trans|]. done.
  - destruct (is_Exception x) eqn:Hx; cbn [fst snd].
    + destruct (backed_off_evolves w x st1 (st_namespace st))
        as (d2 & E2 & D2 & O2 & _).
      exists (d1 ++ d2). rewrite app_assoc.
      split; [eapply evolves_trans; [by eapply evolves_trans | done]|].
      split.
      { apply discipline_app_intro; [done|].
        rewrite (ev_running _ _ _ E1) in D2.
        change (running (session_opened st)) with (running st) in D2.
        by rewrite Hr in D2. }
      split; [done|]. split; [done|].
      by rewrite !opens_app, O1, O2.
    + exists d1. split; [by eapply evolves_trans|]. split; [done|].
      split; [done|]. split; [by intros ? [= <-]|]. done.
Qed.

Lemma watch_loop_eq (w : World) (fuel : nat) (st : State) :
  watch_loop w fuel st
  = if running st then
      match fuel with
      | O => (Pending, st)
      | S fuel' => bind_M (loop_body w) (fun _ => watch_loop w fuel') st
      end
    else (Ok tt, st).
Proof.
  destruct fuel; cbn [watch_loop]; unfold bind_M at 1; unfold get;
    destruct (running st); reflexivity.
Qed.

(** The loop, whatever the fuel: it keeps the discipline; no exception of
    class [Exception] leaves it; when it returns the flag is false; when
    the fuel runs out the flag is still true. *)
Lemma watch_loop_behaves (w : World) (fuel : nat) (st : State) :
  ∃ d, evolves st d (snd (watch_loop w fuel st))
       ∧ discipline (st_namespace st) (running st) d = true
       ∧ (∀ x, fst (watch_loop w fuel st) = Raise x → is_Exception x = false)
       ∧ (fst (watch_loop w fuel st) = Ok tt →
          running (snd (watch_loop w fuel st)) = false)
       ∧ (fst (watch_loop w fuel st) = Pending →
          running (snd (watch_loop w fuel st)) = true)
       ∧ (length (opens d) ≤ fuel)%nat.
Proof.
  revert st. induction fuel as [|fuel IH]; intros st;
    rewrite watch_loop_eq; destruct (running st) eqn:Hr;
    try (exists []; split; [apply evolves_refl|]; simpl;
         repeat split; try done; lia).
  destruct (loop_body_behaves w st Hr) as (d0 & E1 & D1 & P1 & X1 & O0).
  assert (opens (session_start st ++ d0) = [st_namespace st]) as O1.
  { by rewrite opens_app, O0. }
  revert E1 D1 O1. generalize (session_start st ++ d0). intros d1 E1 D1 O1.
  unfold bind_M.
  destruct (loop_body w st) as [[u|x|] st1]; simpl in E1, P1, X1; [| |done].
  - destruct (IH st1) as (d2 & E2 & D2 & X2 & K2 & G2 & L2).
    exists (d1 ++ d2). split; [by eapply evolves_trans|].
    split.
    { apply discipline_app_intro; [done|].
      rewrite (ev_namespace _ _ _ E1), (ev_running _ _ _ E1), Hr in D2.
      done. }
    rewrite opens_app, length_app, O1. simpl.
    repeat split; try done. lia.
  - exists d1. rewrite O1. simpl.
    split; [done|]. split; [done|]. split; [done|].
    split; [done|]. split; [done|]. lia.
Qed.

(** ** [run] *)

Lemma run_eq (w : World) (fuel : nat) (st : State) :
  run w fuel st
  = match bind w with
    | Some e =>
        (Raise (PyException "OSError" e),
         emit (Log INFO ("Starting Pod Monitor Operator for namespace: "
                         +:+ st_namespace st)) st)
    | None =>
        match watch_loop w fuel (started st) with
        | (Pending, st1) => (Pending, st1)
        | (r, st1) => (r, stopped st1)
        end
    end.
Proof.
  unfold run, health_start, started.
  unfold bind_M at 1. unfold get at 1.
  unfold bind_M at 1. unfold log at 1. unfold act at 1.
  unfold bind_M at 1.
  destruct (bind w) as [e|]; [reflexivity|].
  unfold bind_M at 2. unfold act at 1.
  unfold bind_M at 2. unfold act at 1.
  unfold log at 1. unfold act at 1.
  unfold bind_M at 1. unfold act at 1.
  unfold try_finally.
  destruct (watch_loop w fuel _) as [[u|x|] st1]; rewrite ?stop_eq; done.
Qed.

Lemma trace_started (st : State) :
  trace (started st) = trace st ++ start_actions st.
Proof. unfold started, start_actions; simpl. by rewrite <- !app_assoc. Qed.

(** [run], the port of the health server being free: after its first
    actions the trace keeps the discipline of the loop; no exception of
    class [Exception] leaves it; when it ends the flag is false; while it
    is pending the flag is true. *)
Lemma run_behaves (w : World) (fuel : nat) (st : State) :
  bind w = None →
  ∃ d, trace (snd (run w fuel st)) = trace st ++ start_actions st ++ d
       ∧ st_namespace (snd (run w fuel st)) = st_namespace st
       ∧ discipline (st_namespace st) true d = true
       ∧ running (snd (run w fuel st)) = flag_after true d
       ∧ (∀ x, fst (run w fuel st) = Raise x → is_Exception x = false)
       ∧ (fst (run w fuel st) ≠ Pending →
          running (snd (run w fuel st)) = false)
       ∧ (fst (run w fuel st) = Pending →
          running (snd (run w fuel st)) = true)
       ∧ (length (opens d) ≤ fuel)%nat.
Proof.
  intros Hb. rewrite run_eq, Hb.
  destruct (watch_loop_behaves w fuel (started st))
    as (d & E & D & X & K & G & L).
  change (st_namespace (started st)) with (st_namespace st) in D.
  change (running (started st)) with true in D.
  pose proof (ev_trace _ _ _ E) as Ht. rewrite trace_started in Ht.
  pose proof (ev_namespace _ _ _ E) as Hn.
  pose proof (ev_running _ _ _ E) as Hr.
  change (running (started st)) with true in Hr.
  change (st_namespace (started st)) with (st_namespace st) in Hn.
  destruct (watch_loop w fuel (started st)) as [[u|x|] st1];
    cbn [fst snd] in *.
  - exists (d ++ stop_actions st1).
    pose proof (evolves_stopped st1) as Es.
    rewrite (ev_trace _ _ _ Es), Ht, <- !app_assoc.
    rewrite flag_after_app, flag_after_stop, opens_app, length_app.
    split; [done|]. split; [by rewrite (ev_namespace _ _ _ Es)|].
    split; [apply discipline_app_intro; [done | apply discipline_stop]|].
    split; [done|]. split; [done|]. split; [done|]. split; [done|].
    assert (opens (stop_actions st1) = []) as ->; [|simpl; lia].
    unfold stop_actions. by destruct (hs_server st1), (hs_thread st1).
  - exists (d ++ stop_actions st1).
    pose proof (evolves_stopped st1) as Es.
    rewrite (ev_trace _ _ _ Es), Ht, <- !app_assoc.
    rewrite flag_after_app, flag_after_stop, opens_app, length_app.
    split; [done|]. split; [by rewrite (ev_namespace _ _ _ Es)|].
    split; [apply discipline_app_intro; [done | apply discipline_stop]|].
    split; [done|]. split; [done|]. split; [done|]. split; [done|].
    assert (opens (stop_actions st1) = []) as ->; [|simpl; lia].
    unfold stop_actions. by destruct (hs_server st1), (hs_thread st1).
  - exists d. rewrite Ht, <- !app_assoc.
    split; [done|]. split; [done|]. split; [done|]. split; [done|].
    split; [done|]. split; [done|]. split; [by apply G | done].
Qed.

(** ** Errors of the stream *)

Lemma watch_loop_extends (w : World) (fuel : nat) (st : State) :
  ∃ d, trace (snd (watch_loop w fuel st)) = trace st ++ d.
Proof.
  destruct (watch_loop_behaves w fuel st) as (d & E & _).
  exists d. apply (ev_trace _ _ _ E).
Qed.

(** C1. An error of class [Exception] (an [ApiException] or any other)
    raised while the loop reads a session: the iteration ends normally.
    If the flag is true at that point the error is logged, then the loop
    sleeps 5 seconds, whatever the kind of the error, and, the flag still
    being true, opens a new session.  If the flag is false the error is
    logged, there is no sleep and the loop exits.  No such error ever
    leaves [run]: the only exception of class [Exception] that [run] can
    raise is the failure to bind the port of the health server, before
    the loop. *)
Theorem stream_error_backoff (w : World) (st : State) (x : exn)
    (st1 : State) :
  running st = true →
  for_events w (stream w (opened st)) (session_opened st) = (Raise x, st1) →
  is_Exception x = true →
  loop_body w st = (Ok tt, backed_off w x st1)
  ∧ (running st1 = true →
     (∃ d, trace (backed_off w x st1)
           = trace st1 ++ [Log ERROR (error_line x); Sleep 5] ++ d
           ∧ sleeps d = [] ∧ opens d = [] ∧ posted d = [] ∧ errors d = [])
     ∧ (running (backed_off w x st1) = true →
        ∀ fuel, ∃ d',
          trace (snd (watch_loop w (S (S fuel)) st))
          = trace (backed_off w x st1) ++ session_start st ++ d'))
  ∧ (running st1 = false →
     backed_off w x st1 = emit (Log ERROR (error_line x)) st1
     ∧ ∀ fuel,
         watch_loop w (S fuel) st
         = (Ok tt, emit (Log ERROR (error_line x)) st1))
  ∧ (∀ fuel st0 y,
       fst (run w fuel st0) = Raise y → is_Exception y = true →
       ∃ e, bind w = Some e ∧ y = PyException "OSError" e
            ∧ opens (trace (snd (run w fuel st0))) = opens (trace st0)).
Proof.
  intros Hr Hfe Hx.
  assert (loop_body w st = (Ok tt, backed_off w x st1)) as Hbody.
  { by rewrite loop_body_eq, Hfe, Hx. }
  split; [exact Hbody|]. split; [|split].
  - intros Hr1. split.
    + unfold backed_off. rewrite Hr1. unfold slept.
      change (opened (emit (Log ERROR (error_line x)) st1))
        with (opened st1).
      destruct (stop_during_sleep w (opened st1)).
      * eexists. unfold stopped, with_trace. cbn [trace emit].
        rewrite <- !app_assoc. split; [reflexivity|].
        unfold stop_actions. cbn [hs_server hs_thread emit].
        by destruct (hs_server st1), (hs_thread st1).
      * exists []. cbn [trace emit]. by rewrite <- !app_assoc.
    + intros Hrb fuel.
      rewrite (watch_loop_eq w (S (S fuel)) st), Hr.
      unfold bind_M at 1. rewrite Hbody.
      rewrite (watch_loop_eq w (S fuel)), Hrb.
      destruct (loop_body_behaves w _ Hrb) as (d0 & E0 & _ & P0 & _).
      unfold bind_M.
      assert (session_start (backed_off w x st1) = session_start st) as Hs.
      { unfold session_start. f_equal. f_equal.
        destruct (for_events_behaves w "" (stream w (opened st))
                    (session_opened st)) as (d1 & E1 & _).
        rewrite Hfe in E1. cbn [snd] in E1.
        destruct (backed_off_evolves w x st1 "") as (d2 & E2 & _).
        by rewrite (ev_namespace _ _ _ E2), (ev_namespace _ _ _ E1). }
      rewrite Hs in E0.
      destruct (loop_body w (backed_off w x st1)) as [[u|y|] st2];
        cbn [fst snd] in *; [| |done].
      * destruct (watch_loop_extends w fuel st2) as (d3 & Ht).
        exists (d0 ++ d3).
        by rewrite Ht, (ev_trace _ _ _ E0), <- !app_assoc.
      * exists d0. apply (ev_trace _ _ _ E0).
  - intros Hr1.
    assert (backed_off w x st1 = emit (Log ERROR (error_line x)) st1) as Hb.
    { unfold backed_off. by rewrite Hr1. }
    split; [exact Hb|]. intros fuel.
    rewrite watch_loop_eq, Hr. unfold bind_M. rewrite Hbody, Hb.
    rewrite watch_loop_eq. cbn [running emit]. by rewrite Hr1.
  - intros fuel st0 y Hy Hyx.
    destruct (bind w) as [e|] eqn:Hbind.
    + rewrite run_eq, Hbind in Hy |- *. cbn [fst snd] in *.
      injection Hy as <-. exists e. split; [done|]. split; [done|].
      cbn [trace emit]. by rewrite opens_app, app_nil_r.
    + destruct (run_behaves w fuel st0 Hbind) as (d & _ & _ & _ & _ & X & _).
      rewrite (X y Hy) in Hyx. done.
Qed.

(** ** Stopping *)

Lemma discipline_flag (ns : string) (r : bool) (d : list action) :
  discipline ns r d = true → flag_after r d = true →
  r = true ∧ flag_writes d = [].
Proof.
  revert r. induction d as [|a d IH]; intros r HD HF; [done|].
  destruct a; simpl in HD, HF;
    repeat (apply andb_prop in HD as [? HD]); try (by apply IH).
  destruct b; [done|]. by destruct (IH false HD HF).
Qed.

Lemma discipline_quiet (ns : string) (r : bool) (t1 t2 : list action)
    (a : action) :
  discipline ns r (t1 ++ a :: t2) = true → flag_after r t1 = false →
  active a = false.
Proof.
  rewrite discipline_app. intros [_ H]%andb_prop Hf. rewrite Hf in H.
  by destruct a.
Qed.

Lemma discipline_writes (ns : string) (r : bool) (d : list action) :
  discipline ns r d = true →
  flag_writes d = replicate (length (flag_writes d)) false.
Proof.
  revert r. induction d as [|a d IH]; intros r HD; [done|].
  destruct a; simpl in HD |- *;
    repeat (apply andb_prop in HD as [? HD]);
    try discriminate HD; try (exact (IH _ HD)).
  destruct b; [done|]. f_equal. exact (IH _ HD).
Qed.

(** An iteration whose session brings a stop request, after events that
    all come with metadata: it ends with the flag false. *)
Lemma loop_body_stop (w : World) (evs : list Event) (rest : list item)
    (st : State) :
  running st = true →
  stream w (opened st) = (Deliver <$> evs) ++ StopRequest :: rest →
  Forall (fun ev => is_Some (metadata (ev_object ev))) evs →
  running (snd (loop_body w st)) = false.
Proof.
  intros Hr Hs Hall. rewrite loop_body_eq, Hs.
  destruct (for_events_prefix w evs (StopRequest :: rest) (session_opened st)
              Hr Hall) as (d & Heq & _).
  cbn zeta in Heq. rewrite Heq, for_events_stop_request.
  set (st' := stopped _).
  destruct (for_events_behaves w "" rest st') as (d2 & E2 & D2 & _).
  change (running st') with false in D2.
  assert (running (snd (for_events w rest st')) = false) as Hf.
  { rewrite (ev_running _ _ _ E2). change (running st') with false.
    destruct (flag_after false d2) eqn:F; [|done].
    by destruct (discipline_flag _ _ _ D2 F). }
  destruct (for_events w rest st') as [[u|x|] st1]; cbn [snd] in *; try done.
  destruct (is_Exception x); [|done].
  unfold backed_off. by rewrite Hf.
Qed.

Lemma loop_body_opened (w : World) (st : State) :
  running st = true → opened (snd (loop_body w st)) = S (opened st).
Proof.
  intros Hr. destruct (loop_body_behaves w st Hr) as (d & E & _ & _ & _ & O).
  rewrite (ev_opened _ _ _ E), opens_app, O. simpl. lia.
Qed.

Lemma watch_loop_stops (w : World) (k : nat) (evs : list Event)
    (rest : list item) (st : State) :
  stream w (opened st + k) = (Deliver <$> evs) ++ StopRequest :: rest →
  Forall (fun ev => is_Some (metadata (ev_object ev))) evs →
  fst (watch_loop w (S k) st) ≠ Pending.
Proof.
  revert st. induction k as [|k IH]; intros st Hs Hall;
    rewrite watch_loop_eq; destruct (running st) eqn:Hr; try done.
  - rewrite Nat.add_0_r in Hs.
    pose proof (loop_body_stop w evs rest st Hr Hs Hall) as Hf.
    destruct (loop_body_behaves w st Hr) as (_ & _ & _ & P & _).
    unfold bind_M.
    destruct (loop_body w st) as [[u|x|] st1]; cbn [fst snd] in *; try done.
    rewrite watch_loop_eq. by rewrite Hf.
  - pose proof (loop_body_opened w st Hr) as Ho.
    destruct (loop_body_behaves w st Hr) as (_ & _ & _ & P & _).
    unfold bind_M.
    destruct (loop_body w st) as [[u|x|] st1]; cbn [fst snd] in *; try done.
    apply IH; [|done]. rewrite Ho.
    by replace (S (opened st) + k)%nat with (opened st + S k)%nat by lia.
Qed.

(** C6. Once [stop] has set the flag to false the loop ends within the
    iteration under way.  At its check points: the [for] loop breaks at
    the next event read, the error handler logs and skips the sleep, the
    [while] test ends the loop whatever the fuel.  As a whole: if another
    thread calls [stop] during the session number [k], [run] returns
    within [k + 1] iterations with the flag false, and from the
    assignment of false on its trace has no POST, no sleep and no new
    session.  A [run] that has not returned has seen no assignment of
    false at all. *)
Theorem stop_terminates (w : World) (k : nat) (evs : list Event)
    (rest : list item) (st : State) :
  bind w = None →
  stream w (opened st + k) = (Deliver <$> evs) ++ StopRequest :: rest →
  Forall (fun ev => is_Some (metadata (ev_object ev))) evs →
  (∀ s ev items, running s = false →
     for_events w (Deliver ev :: items) s = (Ok tt, emit (Recv ev) s))
  ∧ (∀ s y h, running s = false → on_stream_error w y = Some h →
       h s = (Ok tt, emit (Log ERROR (error_line y)) s))
  ∧ (∀ s y h, running s = true → stop_during_sleep w (opened s) = true →
       on_stream_error w y = Some h →
       fst (h s) = Ok tt ∧ running (snd (h s)) = false)
  ∧ (∀ s fuel, running s = false → watch_loop w fuel s = (Ok tt, s))
  ∧ (∀ s fuel, fst (run w fuel s) = Pending →
       ∃ d, trace (snd (run w fuel s)) = trace (started s) ++ d
            ∧ flag_writes d = [])
  ∧ fst (run w (S k) st) ≠ Pending
  ∧ running (snd (run w (S k) st)) = false
  ∧ ∃ d, trace (snd (run w (S k) st)) = trace (started st) ++ d
         ∧ (length (opens d) ≤ S k)%nat
         ∧ ∀ t1 a t2, d = t1 ++ a :: t2 → flag_after true t1 = false →
                      active a = false.
Proof.
  intros Hb Hs Hall.
  split; [intros s ev items Hr; by apply for_events_break|].
  assert (∀ s y h, on_stream_error w y = Some h →
            h s = (Ok tt, backed_off w y s)) as Hh.
  { intros s y h Hy. destruct (is_Exception y) eqn:Hx.
    - destruct (on_stream_error_eq w y Hx) as (h' & Hy' & Hs').
      rewrite Hy in Hy'. injection Hy' as <-. apply Hs'.
    - by rewrite on_stream_error_interrupt in Hy. }
  split.
  { intros s y h Hr Hy. rewrite (Hh s y h Hy). unfold backed_off.
    by rewrite Hr. }
  split.
  { intros s y h Hr Hsl Hy. rewrite (Hh s y h Hy). split; [done|].
    cbn [snd]. unfold backed_off, slept. rewrite Hr.
    change (opened (emit (Log ERROR (error_line y)) s)) with (opened s).
    by rewrite Hsl. }
  split; [intros s fuel Hr; by rewrite watch_loop_eq, Hr|].
  split.
  { intros s fuel HP.
    destruct (run_behaves w fuel s Hb) as (d & Ht & _ & D & F & _ & _ & G & _).
    exists d. rewrite trace_started, <- app_assoc. split; [exact Ht|].
    rewrite (G HP) in F. symmetry in F.
    by destruct (discipline_flag _ _ _ D F). }
  assert (fst (run w (S k) st) ≠ Pending) as HP.
  { rewrite run_eq, Hb.
    pose proof (watch_loop_stops w k evs rest (started st) Hs Hall) as P.
    by destruct (watch_loop w (S k) (started st)) as [[u|x|] st1]. }
  destruct (run_behaves w (S k) st Hb) as (d & Ht & _ & D & _ & _ & K & _ & L).
  split; [exact HP|]. split; [by apply K|].
  exists d. rewrite trace_started, <- app_assoc. split; [exact Ht|].
  split; [exact L|].
  intros t1 a t2 -> Hf. by eapply discipline_quiet.
Qed.

(** ** Start-up: [__init__] and [main] *)

Lemma init_eq (w : World) (ns : string) (st : State) :
  __init__ w ns st
  = if falsy (environ w !! "SLACK_WEBHOOK_URL") then
      (Raise missing_webhook, constructed ns st)
    else
      let st' := set_webhook_url (default "" (environ w !! "SLACK_WEBHOOK_URL"))
                   (constructed ns st) in
      if incluster_config w then
        (Ok tt, emit (Log INFO "Loaded in-cluster Kubernetes config") st')
      else
        match kube_config w with
        | None => (Ok tt, emit (Log INFO "Loaded local Kubernetes config") st')
        | Some e =>
            (Raise (PyException "ConfigException" e),
             emit (Log ERROR ("Failed to load Kubernetes config: " +:+ e)) st')
        end.
Proof.
  unfold __init__, _init_kubernetes_client, constructed, missing_webhook.
  unfold bind_M at 1. unfold act at 1.
  unfold bind_M at 1. unfold act at 1.
  unfold bind_M at 1. unfold act at 1.
  destruct (falsy _); [reflexivity|].
  unfold bind_M at 1. unfold act at 1. cbn zeta.
  unfold try_except, except_Exception, log, act, raise, bind_M.
  destruct (incluster_config w); [reflexivity|]. cbn.
  destruct (kube_config w); reflexivity.
Qed.

Lemma main_eq (w : World) (fuel : nat) (st : State) :
  main w fuel st
  = match __init__ w (default "default" (environ w !! "NAMESPACE")) st with
    | (Ok _, st1) =>
        match run w fuel st1 with
        | (Raise x, st2) =>
            match on_main_error x with
            | Some h => h st2
            | None => (Raise x, st2)
            end
        | r => r
        end
    | (Raise x, st1) =>
        match on_main_error x with
        | Some h => h st1
        | None => (Raise x, st1)
        end
    | (Pending, st1) => (Pending, st1)
    end.
Proof.
  unfold main, try_except. cbn zeta. unfold bind_M at 1.
  destruct (__init__ w _ st) as [[u|x|] st1]; try reflexivity.
Qed.

Lemma on_main_error_exception (x : exn) (st : State) :
  is_Exception x = true →
  ∃ h, on_main_error x = Some h ∧ h st = (Raise x, failed x st).
Proof.
  intros Hx. destruct x; try discriminate Hx;
    (eexists; split; [reflexivity|]; reflexivity).
Qed.

(** The whole process.  Either start-up fails: an exception of class
    [Exception] leaves [main] and, after the flag was created false, only
    log lines were written.  Or the loop is entered: the trace is the
    creation of the flag, log lines, the first actions of [run], then the
    disciplined actions of the loop and of [stop], then at most a log
    line of [main]; nothing is raised. *)
Lemma main_behaves (w : World) (fuel : nat) :
  let ns := default "default" (environ w !! "NAMESPACE") in
  let r := main w fuel boot in
  st_namespace (snd r) = ns
  ∧ ((∃ l x, fst r = Raise x ∧ is_Exception x = true
             ∧ trace (snd r) = SetRunning false :: l
             ∧ forallb is_Log l = true)
     ∨ (∃ l st1 d l',
          bind w = None
          ∧ (∀ x, fst r ≠ Raise x)
          ∧ st_namespace st1 = ns
          ∧ trace (snd r)
            = (SetRunning false :: l) ++ start_actions st1 ++ d ++ l'
          ∧ forallb is_Log l = true ∧ forallb is_Log l' = true
          ∧ discipline ns true d = true
          ∧ running (snd r) = flag_after true d
          ∧ (fst r = Pending → running (snd r) = true)
          ∧ (fst r ≠ Pending → running (snd r) = false)
          ∧ (length (opens d) ≤ fuel)%nat)).
Proof.
  intros ns r. subst r. rewrite main_eq. fold ns. rewrite init_eq.
  destruct (falsy _).
  { split; [done|]. left. by exists [Log ERROR ("Fatal error: " +:+ exn_str missing_webhook)], missing_webhook. }
  cbn zeta.
  set (st' := set_webhook_url _ _).
  assert (∀ a, plain a = true → is_Log a = true →
            let st1 := emit a st' in
            let r := match run w fuel st1 with
                     | (Raise x, st2) =>
                         match on_main_error x with
                         | Some h => h st2
                         | None => (Raise x, st2)
                         end
                     | r => r
                     end in
            st_namespace (snd r) = ns
            ∧ ((∃ l x, fst r = Raise x ∧ is_Exception x = true
                       ∧ trace (snd r) = SetRunning false :: l
                       ∧ forallb is_Log l = true)
               ∨ (∃ l st1 d l',
                    bind w = None
                    ∧ (∀ x, fst r ≠ Raise x)
                    ∧ st_namespace st1 = ns
                    ∧ trace (snd r)
                      = (SetRunning false :: l) ++ start_actions st1 ++ d ++ l'
                    ∧ forallb is_Log l = true ∧ forallb is_Log l' = true
                    ∧ discipline ns true d = true
                    ∧ running (snd r) = flag_after true d
                    ∧ (fst r = Pending → running (snd r) = true)
                    ∧ (fst r ≠ Pending → running (snd r) = false)
                    ∧ (length (opens d) ≤ fuel)%nat))) as Hrun.
  { intros a Ha La st1 r.
    destruct (bind w) as [e|] eqn:Hb.
    - subst r. rewrite run_eq, Hb. cbn [on_main_error is_Exception].
      unfold bind_M, log, act, raise. cbn [fst snd].
      split; [done|]. left. eexists _, _. split; [reflexivity|].
      split; [done|]. cbn [trace emit st']. cbn.
      split; [reflexivity|]. cbn. by rewrite La.
    - destruct (run_behaves w fuel st1 Hb)
        as (d & Ht & Hn & D & F & X & K & G & L).
      change (st_namespace st1) with ns in *.
      change (trace st1) with ([SetRunning false] ++ [a]) in Ht.
      subst r.
      destruct (run w fuel st1) as [[u|x|] st2]; cbn [fst snd] in *.
      + split; [done|]. right. exists [a], st1, d, [].
        rewrite app_nil_r. cbn [forallb]. rewrite La.
        repeat split; try done; try (intros _; by apply K).
      + pose proof (X x eq_refl) as Hx. destruct x; try discriminate Hx.
        cbn [on_main_error]. unfold log, act. cbn [fst snd].
        split; [done|]. right.
        exists [a], st1, d, [Log INFO "Received interrupt signal, shutting down..."].
        cbn [forallb trace emit running]. rewrite La, Ht, <- !app_assoc.
        repeat split; try done; try (intros _; by apply K).
      + split; [done|]. right. exists [a], st1, d, [].
        rewrite app_nil_r. cbn [forallb]. rewrite La.
        repeat split; try done. }
  destruct (incluster_config w); [by apply Hrun|].
  destruct (kube_config w) as [e|]; [|by apply Hrun].
  cbn [on_main_error is_Exception]. unfold bind_M, log, act, raise.
  cbn [fst snd]. split; [done|]. left. eexists _, _.
  split; [reflexivity|]. split; [done|]. cbn. done.
Qed.

Lemma main_tail (w : World) (fuel : nat) (st : State) :
  bind w = None →
  let r := match run w fuel st with
           | (Raise x, st2) =>
               match on_main_error x with
               | Some h => h st2
               | None => (Raise x, st2)
               end
           | r => r
           end in
  fst r = Ok tt ∨ fst r = Pending.
Proof.
  intros Hb. destruct (run_behaves w fuel st Hb) as (_ & _ & _ & _ & _ & X & _).
  destruct (run w fuel st) as [[[]|x|] st2]; cbn [fst] in *; [by left| |by right].
  pose proof (X x eq_refl) as Hx. destruct x; try discriminate Hx. by left.
Qed.

Lemma main_startup (w : World) (fuel : nat) :
  if startup_fails w
  then ∃ x, fst (main w fuel boot) = Raise x
  else fst (main w fuel boot) = Ok tt ∨ fst (main w fuel boot) = Pending.
Proof.
  unfold startup_fails. rewrite main_eq, init_eq.
  destruct (falsy _); cbn [orb]; [by eexists|]. cbn zeta.
  destruct (incluster_config w); cbn [negb andb orb].
  - destruct (bind w) as [e|] eqn:Hb.
    + rewrite bool_decide_true by done. rewrite run_eq, Hb. by eexists.
    + rewrite bool_decide_false by (by intros [? ?]). by apply main_tail.
  - destruct (kube_config w) as [e'|].
    + rewrite bool_decide_true by done. cbn [orb]. by eexists.
    + rewrite bool_decide_false by (by intros [? ?]). cbn [orb].
      destruct (bind w) as [e|] eqn:Hb.
      * rewrite bool_decide_true by done. rewrite run_eq, Hb. by eexists.
      * rewrite bool_decide_false by (by intros [? ?]). by apply main_tail.
Qed.

(** ** The health endpoint *)

Lemma is_digit_digit (n : N) : is_digit (digit n) = true.
Proof.
  unfold digit, is_digit.
  assert (n mod 10 < 10)%N as H by (by apply N.mod_upper_bound).
  revert H. generalize (n mod 10)%N. intros k H.
  rewrite N_ascii_embedding by lia.
  apply andb_true_intro. split; apply N.leb_le; lia.
Qed.

Lemma append_cons (c : ascii) (s1 s2 : string) :
  String c s1 +:+ s2 = String c (s1 +:+ s2).
Proof. reflexivity. Qed.

Lemma append_empty (s : string) : "" +:+ s = s.
Proof. reflexivity. Qed.

Lemma take_digits2 (n : N) (s : string) :
  take_digits 2 (digits2 n +:+ s) = Some s.
Proof.
  unfold digits2. rewrite !append_cons, append_empty.
  cbn -[digit is_digit]. by rewrite !is_digit_digit.
Qed.

Lemma take_digits4 (n : N) (s : string) :
  take_digits 4 (digits4 n +:+ s) = Some s.
Proof.
  unfold digits4, digits2. rewrite !append_cons, append_empty.
  cbn -[digit is_digit]. by rewrite !is_digit_digit.
Qed.

Lemma take_char_append (c : ascii) (s : string) :
  take_char c (String c "" +:+ s) = Some s.
Proof.
  rewrite append_cons, append_empty. unfold take_char.
  by rewrite Ascii.eqb_refl.
Qed.

Lemma isoformat_iso8601 (d : datetime) : iso8601 (isoformat d) = true.
Proof.
  unfold iso8601, isoformat. cbn [parse].
  rewrite take_digits4, take_char_append, take_digits2, take_char_append,
    take_digits2, take_char_append, take_digits2, take_char_append,
    take_digits2, take_char_append.
  destruct (N.eqb (microsecond d) 0).
  - rewrite take_digits2. reflexivity.
  - rewrite take_digits2, take_char_append.
    unfold digits6, digits4, digits2. cbn -[digit is_digit].
    by rewrite !is_digit_digit.
Qed.

Lemma discipline_serving (ns : string) (r : bool) (d : list action) :
  discipline ns r d = true → flag_after r d = true →
  existsb is_HealthShutdown d = false.
Proof.
  revert r. induction d as [|a d IH]; intros r HD HF; [done|].
  destruct a; simpl in HD, HF |- *;
    repeat (apply andb_prop in HD as [? HD]);
    try discriminate HD; try exact (IH _ HD HF).
  destruct r; [done|]. by destruct (discipline_flag _ _ _ HD HF).
Qed.

Lemma split_after_prefix (f : action -> bool) (p q l1 l2 : list action)
    (a : action) :
  l1 ++ a :: l2 = p ++ q → f a = true → existsb f p = false →
  ∃ q1, l1 = p ++ q1 ∧ q = q1 ++ a :: l2.
Proof.
  revert l1. induction p as [|x p IH]; intros l1 H Ha Hp.
  - by exists l1.
  - simpl in Hp. apply orb_false_elim in Hp as [Hx Hp].
    destruct l1 as [|y l1]; simpl in H.
    + injection H as -> _. congruence.
    + injection H as -> H. destruct (IH l1 H Ha Hp) as (q1 & -> & ->).
      by exists q1.
Qed.

Lemma split_before_suffix (f : action -> bool) (d l' q1 rest : list action)
    (a : action) :
  d ++ l' = q1 ++ a :: rest → f a = true → existsb f l' = false →
  ∃ r1, d = q1 ++ a :: r1.
Proof.
  revert d. induction q1 as [|y q1 IH]; intros d H Ha Hl.
  - destruct d as [|x d]; simpl in H.
    + subst l'. simpl in Hl. by rewrite Ha in Hl.
    + injection H as -> H. by eexists.
  - destruct d as [|x d]; simpl in H.
    + subst l'. simpl in Hl. apply orb_false_elim in Hl as [_ Hl].
      rewrite existsb_app in Hl. simpl in Hl.
      by rewrite Ha, orb_true_r in Hl.
    + injection H as -> H. destruct (IH d H Ha Hl) as [r1 ->]. by exists r1.
Qed.

Lemma logs_none (f : action -> bool) (l : list action) :
  (∀ lvl msg, f (Log lvl msg) = false) →
  forallb is_Log l = true → existsb f l = false.
Proof.
  intros Hf. induction l as [|a l IH]; [done|]. intros [Ha Hl]%andb_prop.
  destruct a; try discriminate Ha. simpl. by rewrite Hf, IH.
Qed.

(** At every sleep found in the trace of the process the health server
    has been started and not been shut down. *)
Lemma serving_at_sleep (w : World) (fuel : nat) (t rest : list action)
    (s : Z) :
  trace (snd (main w fuel boot)) = t ++ Sleep s :: rest →
  serving (t ++ [Sleep s]) = true.
Proof.
  intros Ht.
  destruct (main_behaves w fuel) as [_ [(l & x & _ & _ & Hl & L)
    |(l & st1 & d & l' & _ & _ & _ & Hl & L & L' & D & _)]];
    rewrite Hl in Ht; symmetry in Ht.
  - assert (existsb is_Sleep (t ++ Sleep s :: rest) = true) as H.
    { rewrite existsb_app. simpl. by rewrite orb_true_r. }
    rewrite Ht in H. simpl in H.
    by rewrite (logs_none is_Sleep l) in H.
  - rewrite app_assoc in Ht.
    destruct (split_after_prefix is_Sleep _ _ _ _ _ Ht eq_refl)
      as (q1 & -> & Hq).
    { rewrite existsb_app. simpl. by rewrite (logs_none is_Sleep l). }
    destruct (split_before_suffix is_Sleep _ _ _ _ _ Hq eq_refl) as [r1 ->].
    { by apply logs_none. }
    rewrite discipline_app in D. apply andb_prop in D as [D1 D2].
    assert (flag_after true q1 = true) as F1.
    { destruct (flag_after true q1); [done|]. discriminate D2. }
    unfold serving. rewrite !existsb_app.
    rewrite (discipline_serving _ _ _ D1 F1).
    simpl. rewrite (logs_none is_HealthShutdown l) by done.
    by rewrite !orb_true_r.
Qed.

(** C9. [GET /health] is answered with status 200 and a JSON body whose
    [status] is [healthy] and whose [timestamp] is the UTC time in ISO
    8601 format; any other path is answered with 404 and no body.  The
    answer does not depend on the state of the watch loop: whenever the
    server serves, it is the answer of [do_GET]; and at every backoff
    sleep of the process the server serves, having been started by [run]
    and not yet shut down, so [/health] is answered 200 and [healthy]. *)
Theorem health_always_healthy :
  (∀ m,
     status (do_GET "/health" m) = 200
     ∧ body (do_GET "/health" m)
       = Some [("status", "healthy"); ("timestamp", isoformat (utcnow m))]
     ∧ headers (do_GET "/health" m)
       = [("Server", version_string m); ("Date", date_time_string m);
          ("Content-type", "application/json")]
     ∧ iso8601 (isoformat (utcnow m)) = true)
  ∧ (∀ path m, path ≠ "/health" →
       status (do_GET path m) = 404 ∧ body (do_GET path m) = None)
  ∧ (∀ t path m, serving t = true →
       health_request t path m = Some (do_GET path m))
  ∧ (∀ w fuel t s rest,
       trace (snd (main w fuel boot)) = t ++ Sleep s :: rest →
       serving (t ++ [Sleep s]) = true
       ∧ ∀ m, status <$> health_request (t ++ [Sleep s]) "/health" m
              = Some 200
              ∧ body <$> health_request (t ++ [Sleep s]) "/health" m
                = Some (Some [("status", "healthy");
                              ("timestamp", isoformat (utcnow m))])).
Proof.
  split.
  { intros m. repeat split; try reflexivity. apply isoformat_iso8601. }
  split.
  { intros path m Hp. unfold do_GET.
    apply String.eqb_neq in Hp. by rewrite Hp. }
  split.
  { intros t path m Hs. unfold health_request. by rewrite Hs. }
  intros w fuel t s rest Ht.
  pose proof (serving_at_sleep w fuel t rest s Ht) as Hserv.
  split; [exact Hserv|].
  intros m. unfold health_request. rewrite Hserv. done.
Qed.

(** ** Configuration and the history of the flag *)

Lemma logs_silent (l : list action) :
  forallb is_Log l = true →
  flag_writes l = [] ∧ opens l = [] ∧ posted l = [].
Proof.
  induction l as [|a l IH]; [done|]. intros [Ha Hl]%andb_prop.
  destruct a; try discriminate Ha. by apply IH.
Qed.

Lemma discipline_opens (ns : string) (r : bool) (d : list action) :
  discipline ns r d = true → Forall (eq ns) (opens d).
Proof.
  revert r. induction d as [|a d IH]; intros r HD; [constructor|].
  destruct a; cbn in HD |- *;
    try (apply andb_prop in HD as [? HD]);
    try discriminate HD; try exact (IH _ HD).
  apply andb_prop in H as [[_ Hn]%andb_prop _].
  constructor; [|exact (IH _ HD)].
  symmetry. by apply String.eqb_eq.
Qed.

Lemma flag_after_no_writes (r : bool) (d : list action) :
  flag_writes d = [] → flag_after r d = r.
Proof.
  induction d as [|a d IH]; [done|].
  destruct a; simpl; try done. all: try exact IH.
Qed.

(** C8. Without [SLACK_WEBHOOK_URL] the construction of the operator
    raises the configuration error; [main] logs it and lets it out, the
    process exits with a status that is not 0, and nothing has run: the
    trace holds the creation of the flag and the log line only.  Without
    [NAMESPACE] the namespace of the operator, and of every session it
    opens, is [default]. *)
Theorem startup_configuration (w : World) (fuel : nat) :
  (environ w !! "SLACK_WEBHOOK_URL" = None →
     (∀ ns st, fst (__init__ w ns st) = Raise missing_webhook)
     ∧ fst (main w fuel boot) = Raise missing_webhook
     ∧ trace (snd (main w fuel boot))
       = [SetRunning false;
          Log ERROR
            "Fatal error: SLACK_WEBHOOK_URL environment variable is required"]
     ∧ exit_code (fst (main w fuel boot)) = Some 1
     ∧ exit_code (fst (main w fuel boot)) ≠ Some 0)
  ∧ (environ w !! "NAMESPACE" = None →
     st_namespace (snd (main w fuel boot)) = "default"
     ∧ Forall (eq "default") (opens (trace (snd (main w fuel boot))))).
Proof.
  split.
  - intros He.
    assert (∀ ns st, __init__ w ns st
                     = (Raise missing_webhook, constructed ns st)) as Hi.
    { intros ns st. rewrite init_eq, He. reflexivity. }
    split; [intros ns st; by rewrite Hi|].
    rewrite main_eq, Hi. cbn. done.
  - intros He.
    destruct (main_behaves w fuel) as [Hn H]. rewrite He in Hn, H.
    cbn [default] in Hn, H. split; [exact Hn|].
    destruct H as [(l & x & _ & _ & -> & Hl)
                  |(l & st1 & d & l' & _ & _ & Hn1 & -> & Hl & Hl' & D & _)].
    + change (SetRunning false :: l) with ([SetRunning false] ++ l).
      rewrite opens_app.
      destruct (logs_silent l Hl) as (_ & -> & _). constructor.
    + change (SetRunning false :: l) with ([SetRunning false] ++ l).
      rewrite !opens_app.
      destruct (logs_silent l Hl) as (_ & -> & _).
      destruct (logs_silent l' Hl') as (_ & -> & _).
      rewrite !app_nil_r.
      change (opens [SetRunning false] ++ opens (start_actions st1) ++ opens d)
        with (opens d).
      by apply discipline_opens in D.
Qed.

(** C7. Over the life of a process the flag is monotonic.  It is created
    at start-up: the constructor makes it, false, and [run], once the
    health server is up, sets it to true.  From then on only false is
    assigned: none while the loop runs, at least one once [main] has
    ended.  So after its creation the flag never goes from false back to
    true, and it goes from true to false exactly once, at shutdown.  When
    start-up fails the flag is never true at all. *)
Theorem flag_history (w : World) (fuel : nat) :
  let r := main w fuel boot in
  let ws := flag_writes (trace (snd r)) in
  (startup_fails w = true → ws = [false])
  ∧ (startup_fails w = false →
     ∃ n, ws = false :: true :: replicate n false
          ∧ (fst r = Pending → n = O)
          ∧ (fst r ≠ Pending → (0 < n)%nat))
  ∧ never_reset (drop 1 ws)
  ∧ (∀ l1 l2, ws = l1 ++ false :: true :: l2 → l1 = [])
  ∧ (falls ws ≤ 1)%nat
  ∧ (startup_fails w = false → fst r ≠ Pending → falls ws = 1%nat).
Proof.
  intros r ws.
  assert ((startup_fails w = true ∧ ws = [false])
          ∨ (startup_fails w = false
             ∧ ∃ n, ws = false :: true :: replicate n false
                    ∧ (fst r = Pending → n = O)
                    ∧ (fst r ≠ Pending → (0 < n)%nat))) as Hshape.
  { subst r ws. pose proof (main_startup w fuel) as Hs.
    destruct (main_behaves w fuel) as [_ H].
    destruct H as [(l & x & Hx & _ & -> & Hl)
                  |(l & st1 & d & l' & _ & N & _ & -> & Hl & Hl' & D & F & G & K & _)].
    - left. split.
      + destruct (startup_fails w); [done|].
        rewrite Hx in Hs. by destruct Hs.
      + change (SetRunning false :: l) with ([SetRunning false] ++ l).
        rewrite flag_writes_app. by destruct (logs_silent l Hl) as (-> & _).
    - right. split.
      + destruct (startup_fails w); [|done].
        destruct Hs as [x Hx]. by destruct (N x).
      + exists (length (flag_writes d)).
        change (SetRunning false :: l) with ([SetRunning false] ++ l).
        rewrite !flag_writes_app.
        destruct (logs_silent l Hl) as (-> & _).
        destruct (logs_silent l' Hl') as (-> & _).
        rewrite !app_nil_r.
        change (flag_writes [SetRunning false] ++
                flag_writes (start_actions st1) ++ flag_writes d)
          with (false :: true :: flag_writes d).
        split; [f_equal; f_equal; by eapply discipline_writes|].
        split.
        * intros HP. rewrite (G HP) in F. symmetry in F.
          by destruct (discipline_flag _ _ _ D F) as [_ ->].
        * intros HP. rewrite (K HP) in F.
          destruct (flag_writes d) eqn:Hw; [|simpl; lia].
          by rewrite (flag_after_no_writes true d Hw) in F. }
  assert (∀ n l1 l2, replicate n false ≠ l1 ++ true :: l2) as Hrep.
  { intros n l1 l2 Heq.
    assert (true ∈ replicate n false) as Hin.
    { rewrite Heq. apply elem_of_app. right. left. }
    by apply elem_of_replicate in Hin as [? _]. }
  assert (∀ n, falls (replicate n false) = O) as Hfalls.
  { induction n as [|[|n] IH]; [done | done |]. exact IH. }
  destruct Hshape as [[Hf Hws] | [Hf (n & Hws & HP & HN)]].
  - rewrite Hws. split; [done|]. split; [by rewrite Hf|].
    split; [by intros [|? [|? ?]] l2 ?|].
    split; [by intros [|? [|? ?]] l2 ?|].
    split; [simpl; lia | by rewrite Hf].
  - rewrite Hws. split; [by rewrite Hf|]. split; [intros _; by exists n|].
    split.
    { cbn [drop]. intros [|b l1] l2 Heq; [discriminate Heq|].
      injection Heq as _ Heq. apply (Hrep n (l1 ++ [false]) l2).
      rewrite Heq. by rewrite <- app_assoc. }
    split.
    { intros [|b [|b' l1]] l2 Heq; [done| |].
      - by injection Heq.
      - exfalso. injection Heq as _ _ Heq.
        apply (Hrep n (l1 ++ [false]) l2).
        rewrite Heq. by rewrite <- app_assoc. }
    assert (falls (false :: true :: replicate n false)
            = if n is O then O else 1%nat) as ->.
    { destruct n as [|n]; [done|].
      change (falls (false :: true :: replicate (S n) false))
        with (S (falls (replicate (S n) false))).
      by rewrite Hfalls. }
    split; [destruct n; lia|].
    intros _ Hne. specialize (HN Hne). destruct n; [lia | done].
Qed.

(** ** The sample worlds at work *)

Example brief_trace :
  trace (snd (main brief 1 boot))
  = [SetRunning false;
     Log INFO "Loaded in-cluster Kubernetes config";
     Log INFO "Starting Pod Monitor Operator for namespace: default";
     HealthStart 8080;
     Log INFO "Health server started on port 8080";
     SetRunning true;
     Log INFO "Starting to watch pod events...";
     OpenStream "default" 60;
     Log INFO "Stopping Pod Monitor Operator...";
     SetRunning false;
     HealthShutdown;
     HealthJoin;
     Log INFO "Health server stopped";
     Log INFO "Stopping Pod Monitor Operator...";
     SetRunning false;
     HealthShutdown;
     HealthJoin;
     Log INFO "Health server stopped"].
Proof. vm_compute. reflexivity. Qed.

Example flaky_trace :
  trace (snd (main flaky 2 boot))
  = [SetRunning false;
     Log INFO "Loaded in-cluster Kubernetes config";
     Log INFO "Starting Pod Monitor Operator for namespace: default";
     HealthStart 8080;
     Log INFO "Health server started on port 8080";
     SetRunning true;
     Log INFO "Starting to watch pod events...";
     OpenStream "default" 60;
     Log ERROR "Kubernetes API error: (410) Reason: Gone";
     Sleep 5;
     Log INFO "Starting to watch pod events...";
     OpenStream "default" 60;
     Log INFO "Stopping Pod Monitor Operator...";
     SetRunning false;
     HealthShutdown;
     HealthJoin;
     Log INFO "Health server stopped";
     Log INFO "Stopping Pod Monitor Operator...";
     SetRunning false;
     HealthShutdown;
     HealthJoin;
     Log INFO "Health server stopped"]
  ∧ fst (main flaky 2 boot) = Ok tt.
Proof. vm_compute. split; reflexivity. Qed.

Example busy_posts :
  posted (trace (snd (main busy 1 boot))) = ["Hello world from web-1"]
  ∧ fst (main busy 1 boot) = Ok tt
  ∧ fst (main busy 0 boot) = Pending.
Proof. vm_compute. repeat split; reflexivity. Qed.

Example unconfigured_exit :
  exit_code (fst (main unconfigured 3 boot)) = Some 1.
Proof. vm_compute. reflexivity. Qed.

(** ** The statements at work on the sample worlds *)

(** The first session of [flaky] fails with an API error while the flag is
    true: the iteration ends normally after one sleep of 5 seconds. *)
Lemma stream_error_backoff_flaky :
  running ready = true
  ∧ for_events flaky (stream flaky (opened ready)) (session_opened ready)
    = (Raise (ApiException "(410) Reason: Gone"), session_opened ready)
  ∧ is_Exception (ApiException "(410) Reason: Gone") = true
  ∧ loop_body flaky ready
    = (Ok tt, backed_off flaky (ApiException "(410) Reason: Gone")
                (session_opened ready)).
Proof.
  split; [reflexivity|]. split; [reflexivity|]. split; [reflexivity|].
  exact (proj1 (stream_error_backoff flaky ready
                  (ApiException "(410) Reason: Gone") (session_opened ready)
                  eq_refl eq_refl eq_refl)).
Defined.

(** Two events of [busy], the flag being true: both are read. *)
Lemma notifications_in_order_busy :
  running ready = true
  ∧ Forall (fun ev => is_Some (metadata (ev_object ev)))
      [{| ev_type := "ADDED"; ev_object := web_1 |};
       {| ev_type := "MODIFIED"; ev_object := coredns |}]
  ∧ ∃ st',
      for_events busy
        (Deliver <$> [{| ev_type := "ADDED"; ev_object := web_1 |};
                      {| ev_type := "MODIFIED"; ev_object := coredns |}])
        ready = (Ok tt, st')
      ∧ running st' = true.
Proof.
  assert (Forall (fun ev => is_Some (metadata (ev_object ev)))
            [{| ev_type := "ADDED"; ev_object := web_1 |};
             {| ev_type := "MODIFIED"; ev_object := coredns |}]) as Hall.
  { repeat constructor; eexists; reflexivity. }
  split; [reflexivity|]. split; [exact Hall|].
  destruct (notifications_in_order busy _ ready eq_refl Hall)
    as (st' & H1 & H2 & _).
  exists st'. split; [exact H1 | exact H2].
Defined.

(** [brief]: the stop request arrives in the first session, [run] returns
    within one iteration. *)
Lemma stop_terminates_brief :
  bind brief = None
  ∧ stream brief (opened ready + 0) = (Deliver <$> []) ++ StopRequest :: []
  ∧ fst (run brief 1 ready) ≠ Pending
  ∧ running (snd (run brief 1 ready)) = false.
Proof.
  split; [reflexivity|]. split; [reflexivity|].
  destruct (stop_terminates brief 0 [] [] ready eq_refl eq_refl
              (List.Forall_nil _)) as (_ & _ & _ & _ & _ & H1 & H2 & _).
  split; [exact H1 | exact H2].
Defined.

(** The handler on a [BOOKMARK] and its dictionary: no POST. *)
Lemma unknown_event_dropped_bookmark :
  "BOOKMARK" ≠ "ADDED" ∧ "BOOKMARK" ≠ "MODIFIED" ∧ "BOOKMARK" ≠ "DELETED"
  ∧ pd_metadata (de_object bookmark) ≠ PyNone
  ∧ _handle_pod_event bookmarked "BOOKMARK" (de_object bookmark) ready
    = (Ok tt,
       emit (Log INFO "Processed BOOKMARK event for pod: unknown") ready).
Proof.
  assert ("BOOKMARK" ≠ "ADDED") as H1 by discriminate.
  assert ("BOOKMARK" ≠ "MODIFIED") as H2 by discriminate.
  assert ("BOOKMARK" ≠ "DELETED") as H3 by discriminate.
  assert (pd_metadata (de_object bookmark) ≠ PyNone) as H4 by discriminate.
  split; [exact H1|]. split; [exact H2|]. split; [exact H3|].
  split; [exact H4|].
  destruct (unknown_event_dropped bookmarked "BOOKMARK" (de_object bookmark)
              ready H1 H2 H3 H4) as (pod_name & He & Hh & _).
  injection He as <-. exact Hh.
Defined.

(** C10, as it was stated, fails on [bookmarked]: the bookmark is of none
    of the three types, yet it never reaches the handler; the filter
    raises on its dictionary, the loop logs the error and sleeps, and the
    event that follows in the session is not read. *)
Lemma bookmark_aborts_session :
  de_type bookmark ≠ "ADDED" ∧ de_type bookmark ≠ "MODIFIED"
  ∧ de_type bookmark ≠ "DELETED"
  ∧ stream bookmarked (opened ready)
    = [Deliver {| ev_type := "ADDED"; ev_object := web_1 |};
       DeliverDict bookmark;
       Deliver {| ev_type := "DELETED"; ev_object := web_1 |}]
  ∧ fst (loop_body bookmarked ready) = Ok tt
  ∧ reads (trace (snd (loop_body bookmarked ready)))
    = [{| ev_type := "ADDED"; ev_object := web_1 |}]
  ∧ dict_reads (trace (snd (loop_body bookmarked ready))) = [bookmark]
  ∧ posted (trace (snd (loop_body bookmarked ready)))
    = ["Hello world from web-1"]
  ∧ errors (trace (snd (loop_body bookmarked ready)))
    = ["Unexpected error: 'dict' object has no attribute 'metadata'"]
  ∧ sleeps (trace (snd (loop_body bookmarked ready))) = [5]
  ∧ last (trace (snd (loop_body bookmarked ready))) = Some (Sleep 5).
Proof.
  split; [discriminate|]. split; [discriminate|]. split; [discriminate|].
  vm_compute. repeat split; reflexivity.
Qed.

(** C4, as it was stated, fails on [no_content]: 204 is a success status
    of HTTP, and [send_message] returns [False]. *)
Lemma accepted_not_delivered :
  success_status 204 = true
  ∧ webhook no_content (posts ready) = Responds 204
  ∧ fst (send_message no_content "Hello world from web-1" ready) = Ok false.
Proof. vm_compute. repeat split; reflexivity. Qed.

(** [unconfigured]: no webhook, exit status 1; no namespace, [default]. *)
Lemma startup_configuration_unconfigured :
  environ unconfigured !! "SLACK_WEBHOOK_URL" = None
  ∧ environ unconfigured !! "NAMESPACE" = None
  ∧ exit_code (fst (main unconfigured 1 boot)) = Some 1
  ∧ st_namespace (snd (main unconfigured 1 boot)) = "default".
Proof.
  split; [reflexivity|]. split; [reflexivity|].
  destruct (startup_configuration unconfigured 1) as [H1 H2].
  split.
  - exact (proj1 (proj2 (proj2 (proj2 (H1 eq_refl))))).
  - exact (proj1 (H2 eq_refl)).
Defined.

(** [flaky]: a health request during the backoff sleep is answered 200. *)
Lemma health_always_healthy_flaky :
  trace (snd (main flaky 2 boot))
  = [SetRunning false;
     Log INFO "Loaded in-cluster Kubernetes config";
     Log INFO "Starting Pod Monitor Operator for namespace: default";
     HealthStart 8080;
     Log INFO "Health server started on port 8080";
     SetRunning true;
     Log INFO "Starting to watch pod events...";
     OpenStream "default" 60;
     Log ERROR "Kubernetes API error: (410) Reason: Gone"]
    ++ Sleep 5
    :: [Log INFO "Starting to watch pod events...";
        OpenStream "default" 60;
        Log INFO "Stopping Pod Monitor Operator...";
        SetRunning false;
        HealthShutdown;
        HealthJoin;
        Log INFO "Health server stopped";
        Log INFO "Stopping Pod Monitor Operator...";
        SetRunning false;
        HealthShutdown;
        HealthJoin;
        Log INFO "Health server stopped"]
  ∧ status <$> health_request
                 ([SetRunning false;
                   Log INFO "Loaded in-cluster Kubernetes config";
                   Log INFO "Starting Pod Monitor Operator for namespace: default";
                   HealthStart 8080;
                   Log INFO "Health server started on port 8080";
                   SetRunning true;
                   Log INFO "Starting to watch pod events...";
                   OpenStream "default" 60;
                   Log ERROR "Kubernetes API error: (410) Reason: Gone"]
                  ++ [Sleep 5])
                 "/health"
                 {| version_string := "BaseHTTP/0.6 Python/3.11.4";
                    date_time_string := "Fri, 17 May 2024 09:30:00 GMT";
                    utcnow := {| year := 2024; month := 5; day := 17;
                                 hour := 9; minute := 30; second := 0;
                                 microsecond := 125000 |} |}
    = Some 200.
Proof.
  assert (trace (snd (main flaky 2 boot))
          = [SetRunning false;
             Log INFO "Loaded in-cluster Kubernetes config";
             Log INFO "Starting Pod Monitor Operator for namespace: default";
             HealthStart 8080;
             Log INFO "Health server started on port 8080";
             SetRunning true;
             Log INFO "Starting to watch pod events...";
             OpenStream "default" 60;
             Log ERROR "Kubernetes API error: (410) Reason: Gone"]
            ++ Sleep 5
            :: [Log INFO "Starting to watch pod events...";
                OpenStream "default" 60;
                Log INFO "Stopping Pod Monitor Operator...";
                SetRunning false;
                HealthShutdown;
                HealthJoin;
                Log INFO "Health server stopped";
                Log INFO "Stopping Pod Monitor Operator...";
                SetRunning false;
                HealthShutdown;
                HealthJoin;
                Log INFO "Health server stopped"]) as Ht
    by (vm_compute; reflexivity).
  split; [exact Ht|].
  destruct health_always_healthy as (_ & _ & _ & H).
  destruct (H flaky 2%nat _ 5 _ Ht) as [_ H'].
  exact (proj1 (H' _)).
Defined.

(** The history of the flag on [brief]: created false, set to true by
    [run], then false twice, by the stop request and by the [finally]. *)
Example brief_flag_history :
  flag_writes (trace (snd (main brief 1 boot))) = [false; true; false; false]
  ∧ falls (flag_writes (trace (snd (main brief 1 boot)))) = 1%nat.
Proof. vm_compute. split; reflexivity. Qed.

(** * Further properties of the code *)

(** ** Start-up *)

(** X1. [__init__] raises the configuration error exactly when
    [SLACK_WEBHOOK_URL] is unset or set to the empty string; it does so
    before it loads any Kubernetes configuration, having written no log
    line.  With a URL that is not empty the notifier posts to that URL. *)
Theorem webhook_url_required (w : World) (ns : string) (st : State) :
  (fst (__init__ w ns st) = Raise missing_webhook
   ↔ environ w !! "SLACK_WEBHOOK_URL" = None
     ∨ environ w !! "SLACK_WEBHOOK_URL" = Some "")
  ∧ (fst (__init__ w ns st) = Raise missing_webhook →
     trace (snd (__init__ w ns st)) = trace st ++ [SetRunning false])
  ∧ (∀ url, environ w !! "SLACK_WEBHOOK_URL" = Some url → url ≠ "" →
       webhook_url (snd (__init__ w ns st)) = url).
Proof.
  rewrite init_eq.
  destruct (environ w !! "SLACK_WEBHOOK_URL") as [url|] eqn:He; cbn [falsy].
  2:{ split; [split; [by left | done]|]. split; [done|]. by intros url [=]. }
  destruct (String.eqb_spec url "") as [->|Hne].
  { split; [split; [by right | done]|]. split; [done|]. by intros url [= <-]. }
  cbn zeta.
  split; [|split].
  - split.
    + destruct (incluster_config w); [done|].
      by destruct (kube_config w).
    + by intros [H|[= H]].
  - destruct (incluster_config w); [done|]. by destruct (kube_config w).
  - intros url' [= <-] _.
    destruct (incluster_config w); [done|]. by destruct (kube_config w).
Qed.

Lemma logs_no_start (l : list action) :
  forallb is_Log l = true → existsb is_HealthStart l = false.
Proof.
  induction l as [|a l IH]; [done|]. intros [Ha Hl]%andb_prop.
  destruct a; try discriminate Ha. by apply IH.
Qed.

(** X3. The exit status of the process is 1 exactly when start-up fails (no
    webhook URL, no Kubernetes configuration, or no port for the health
    server); then the flag was never set to true, the health server never
    started, no session was opened and nothing was posted.  Once the loop
    is entered the process can only end with status 0, also on an
    interrupt. *)
Theorem main_exit_status (w : World) (fuel : nat) :
  (exit_code (fst (main w fuel boot)) = Some 1 ↔ startup_fails w = true)
  ∧ (startup_fails w = true →
     flag_writes (trace (snd (main w fuel boot))) = [false]
     ∧ existsb is_HealthStart (trace (snd (main w fuel boot))) = false
     ∧ opens (trace (snd (main w fuel boot))) = []
     ∧ posted (trace (snd (main w fuel boot))) = [])
  ∧ (startup_fails w = false →
     exit_code (fst (main w fuel boot)) = Some 0
     ∨ fst (main w fuel boot) = Pending).
Proof.
  pose proof (main_startup w fuel) as H.
  destruct (startup_fails w).
  - destruct H as [x Hx]. split; [by rewrite Hx|]. split; [|done].
    intros _.
    destruct (main_behaves w fuel) as [_ [(l & y & _ & _ & Ht & Hl)|B]].
    + rewrite Ht. change (SetRunning false :: l) with ([SetRunning false] ++ l).
      rewrite flag_writes_app, opens_app, posted_app, existsb_app.
      destruct (logs_silent l Hl) as (-> & -> & ->).
      by rewrite (logs_no_start l Hl).
    + destruct B as (_ & _ & _ & _ & _ & N & _). by destruct (N x).
  - split; [|split; [done|]].
    + destruct H as [-> | ->]; done.
    + intros _. destruct H as [-> | ->]; [by left | by right].
Qed.

(** X2. The Kubernetes configuration: the in-cluster one is tried first and,
    when it loads, the local one is not looked at; when it fails, its
    error is dropped and the local one is tried.  When both fail the
    error of the local one is logged and raised again; [main] then logs
    it a second time and lets it out. *)
Theorem kube_config_fallback (w : World) (st : State) :
  (incluster_config w = true →
     _init_kubernetes_client w st
     = (Ok tt, emit (Log INFO "Loaded in-cluster Kubernetes config") st))
  ∧ (incluster_config w = false → kube_config w = None →
     _init_kubernetes_client w st
     = (Ok tt, emit (Log INFO "Loaded local Kubernetes config") st))
  ∧ (∀ e, incluster_config w = false → kube_config w = Some e →
       _init_kubernetes_client w st
       = (Raise (PyException "ConfigException" e),
          emit (Log ERROR ("Failed to load Kubernetes config: " +:+ e)) st)
       ∧ (falsy (environ w !! "SLACK_WEBHOOK_URL") = false →
          ∀ fuel,
            fst (main w fuel boot) = Raise (PyException "ConfigException" e)
            ∧ errors (trace (snd (main w fuel boot)))
              = ["Failed to load Kubernetes config: " +:+ e;
                 "Fatal error: " +:+ e])).
Proof.
  unfold _init_kubernetes_client, try_except, except_Exception, log, act,
    raise, bind_M.
  split; [by intros ->|]. split; [by intros -> ->|].
  intros e Hi Hk. rewrite Hi, Hk. split; [done|].
  intros Hf fuel. rewrite main_eq, init_eq, Hf, Hi, Hk. done.
Qed.

(** X5. A pod of the stream is announced under its own name, and under
    [None] when it has none: the default [unknown] of
    [_extract_pod_name] serves only for a dictionary that lacks the
    [metadata] or the [name] key, which [to_dict] never produces.  A
    dictionary whose [metadata] is [None] makes the handler raise before
    anything is posted or logged. *)
Theorem pod_name_defaults (w : World) (st : State) :
  _extract_pod_name {| pd_metadata := Missing |} st = (Ok (VStr "unknown"), st)
  ∧ _extract_pod_name {| pd_metadata := Val {| md_name := Missing |} |} st
    = (Ok (VStr "unknown"), st)
  ∧ (∀ m, _extract_pod_name (to_dict {| metadata := Some m |}) st
          = (Ok (match name m with Some n => VStr n | None => VNone end), st))
  ∧ (∀ m k, name m = None →
       posted (trace (snd (_handle_pod_event w (wire_name k)
                             (to_dict {| metadata := Some m |}) st)))
       = posted (trace st) ++ [template k "None"])
  ∧ (∀ event_type,
       _handle_pod_event w event_type (to_dict {| metadata := None |}) st
       = (Raise (PyException "AttributeError"
                   "'NoneType' object has no attribute 'get'"), st)).
Proof.
  split; [done|]. split; [done|]. split; [|split].
  - intros m.
    by rewrite (extract_pod_name_eq {| metadata := Some m |} m st eq_refl).
  - intros m k Hn.
    rewrite (handle_pod_event_eq w _ {| metadata := Some m |} m st eq_refl).
    cbn [snd]. rewrite posted_handled. unfold pod_name_of. rewrite Hn.
    by destruct k.
  - done.
Qed.

(** X4. The namespace watched is the value of [NAMESPACE] whenever the
    variable is set, the empty string included; [default] stands in only
    for a variable that is not set.  Every session of the process is
    opened on that namespace, and there are at most as many sessions as
    iterations of the loop. *)
Theorem namespace_from_environment (w : World) (fuel : nat) :
  (∀ ns, environ w !! "NAMESPACE" = Some ns →
     st_namespace (snd (main w fuel boot)) = ns
     ∧ Forall (eq ns) (opens (trace (snd (main w fuel boot)))))
  ∧ (length (opens (trace (snd (main w fuel boot)))) ≤ fuel)%nat.
Proof.
  destruct (main_behaves w fuel) as [Hn H].
  assert (Forall (eq (default "default" (environ w !! "NAMESPACE")))
            (opens (trace (snd (main w fuel boot))))
          ∧ (length (opens (trace (snd (main w fuel boot)))) ≤ fuel)%nat)
    as [Ho Hl].
  { destruct H as [(l & x & _ & _ & -> & Hl)
                  |(l & st1 & d & l' & _ & _ & Hn1 & -> & Hl & Hl' & D & _ & _ & _ & L)].
    - change (SetRunning false :: l) with ([SetRunning false] ++ l).
      rewrite opens_app.
      destruct (logs_silent l Hl) as (_ & -> & _). split; [constructor|].
      simpl. lia.
    - change (SetRunning false :: l) with ([SetRunning false] ++ l).
      rewrite !opens_app.
      destruct (logs_silent l Hl) as (_ & -> & _).
      destruct (logs_silent l' Hl') as (_ & -> & _).
      rewrite !app_nil_r.
      change (opens [SetRunning false] ++ opens (start_actions st1) ++ opens d)
        with (opens d).
      split; [by apply discipline_opens in D | done]. }
  split; [|exact Hl].
  intros ns He. rewrite He in Hn, Ho. done.
Qed.

(** ** Iterations of the loop *)

Lemma reads_app (t1 t2 : list action) :
  reads (t1 ++ t2) = reads t1 ++ reads t2.
Proof. apply omap_app. Qed.

Lemma reads_io (t : list action) :
  reads t = omap (fun x => match x with
                           | inl ev => Some ev
                           | inr _ => None
                           end) (io t).
Proof.
  induction t as [|a t IH]; [done|].
  destruct a; simpl; rewrite ?IH; done.
Qed.

Lemma reads_flat_map (evs : list Event) :
  omap (fun x : Event + string =>
          match x with inl ev => Some ev | inr _ => None end)
    (flat_map (fun ev =>
       inl ev :: (if passes ev
                  then option_list (inr <$> event_message ev)
                  else [])) evs)
  = evs.
Proof.
  induction evs as [|ev evs IH]; [done|].
  cbn [flat_map]. rewrite omap_app, IH.
  destruct (passes ev); [|reflexivity].
  by destruct (event_message ev).
Qed.

(** What the events of a session leave in the trace, in the terms of
    [reads], [posted] and [sleeps]. *)
Lemma for_events_prefix_trace (w : World) (evs : list Event)
    (rest : list item) (st : State) :
  running st = true →
  Forall (fun ev => is_Some (metadata (ev_object ev))) evs →
  ∃ st', for_events w ((Deliver <$> evs) ++ rest) st = for_events w rest st'
         ∧ running st' = true
         ∧ opened st' = opened st
         ∧ st_namespace st' = st_namespace st
         ∧ hs_server st' = hs_server st ∧ hs_thread st' = hs_thread st
         ∧ reads (trace st') = reads (trace st) ++ evs
         ∧ posted (trace st')
           = posted (trace st) ++ omap event_message (List.filter passes evs)
         ∧ sleeps (trace st') = sleeps (trace st)
         ∧ flag_writes (trace st') = flag_writes (trace st)
         ∧ opens (trace st') = opens (trace st).
Proof.
  intros Hr Hall.
  destruct (for_events_prefix w evs rest st Hr Hall)
    as (d & Heq & E & Hr' & I & S & O & W).
  cbn zeta in *. eexists. split; [exact Heq|]. split; [exact Hr'|].
  rewrite (ev_opened _ _ _ E), (ev_namespace _ _ _ E), (ev_server _ _ _ E),
    (ev_thread _ _ _ E), (ev_trace _ _ _ E), O.
  rewrite reads_app, posted_app, sleeps_app, flag_writes_app, opens_app.
  rewrite S, O, W, !app_nil_r, (reads_io d), (posted_io d), I.
  rewrite reads_flat_map, posted_flat_map. simpl.
  repeat split; try done; lia.
Qed.

(** What an [except] clause of the loop leaves in the trace. *)
Lemma backed_off_trace (w : World) (x : exn) (st : State) :
  ∃ d, trace (backed_off w x st) = trace st ++ d
       ∧ reads d = [] ∧ posted d = [] ∧ opens d = []
       ∧ errors d = [error_line x]
       ∧ sleeps d = (if running st then [5] else [])
       ∧ opened (backed_off w x st) = opened st.
Proof.
  unfold backed_off, slept. destruct (running st).
  - change (opened (emit (Log ERROR (error_line x)) st)) with (opened st).
    destruct (stop_during_sleep w (opened st)).
    + exists ([Log ERROR (error_line x); Sleep 5]
              ++ stop_actions (emit (Sleep 5)
                                 (emit (Log ERROR (error_line x)) st))).
      unfold stopped, with_trace. cbn [trace emit opened].
      rewrite <- !app_assoc. split; [done|].
      unfold stop_actions. cbn [hs_server hs_thread emit].
      by destruct (hs_server st), (hs_thread st).
    + exists [Log ERROR (error_line x); Sleep 5]. cbn [trace emit opened].
      by rewrite <- !app_assoc.
  - by exists [Log ERROR (error_line x)].
Qed.

(** X7. A session that ends on its timeout, the flag being true: the loop
    goes straight to the next iteration, without a sleep; every event of
    the session has been read, and the messages of those that pass the
    filter have been posted. *)
Theorem clean_session_recycles (w : World) (evs : list Event) (st : State)
    (fuel : nat) :
  running st = true →
  stream w (opened st) = Deliver <$> evs →
  Forall (fun ev => is_Some (metadata (ev_object ev))) evs →
  ∃ st',
    loop_body w st = (Ok tt, st')
    ∧ watch_loop w (S fuel) st = watch_loop w fuel st'
    ∧ running st' = true
    ∧ opened st' = S (opened st)
    ∧ opens (trace st') = opens (trace st) ++ [st_namespace st]
    ∧ sleeps (trace st') = sleeps (trace st)
    ∧ reads (trace st') = reads (trace st) ++ evs
    ∧ posted (trace st')
      = posted (trace st) ++ omap event_message (List.filter passes evs).
Proof.
  intros Hr Hs Hall.
  destruct (for_events_prefix_trace w evs [] (session_opened st) Hr Hall)
    as (st' & Heq & Hr' & Ho & _ & _ & _ & HR & HP & HS & _ & HO).
  rewrite app_nil_r, for_events_nil in Heq.
  assert (loop_body w st = (Ok tt, st')) as Hb.
  { by rewrite loop_body_eq, Hs, Heq. }
  exists st'. split; [exact Hb|].
  split; [by rewrite (watch_loop_eq w (S fuel)), Hr; unfold bind_M; rewrite Hb|].
  split; [exact Hr'|]. split; [by rewrite Ho|].
  rewrite HO, HS, HR, HP. cbn [trace session_opened emit count_open].
  rewrite !opens_app, !sleeps_app, !reads_app, !posted_app, !app_nil_r.
  repeat split; try done.
Qed.

(** An iteration whose session fails at once, nobody stopping the
    operator meanwhile. *)
Lemma failed_iteration (w : World) (x : exn) (rest : list item) (st : State) :
  running st = true →
  stream w (opened st) = Fail x :: rest →
  is_Exception x = true →
  stop_during_sleep w (S (opened st)) = false →
  ∃ st', loop_body w st = (Ok tt, st')
         ∧ running st' = true
         ∧ opened st' = S (opened st)
         ∧ trace st'
           = trace st ++ session_start st
             ++ [Log ERROR (error_line x); Sleep 5].
Proof.
  intros Hr Hs Hx Hsl. rewrite loop_body_eq, Hs, for_events_fail, Hx.
  eexists. split; [reflexivity|].
  unfold backed_off, slept.
  change (running (session_opened st)) with (running st). rewrite Hr.
  change (opened (emit (Log ERROR (error_line x)) (session_opened st)))
    with (S (opened st)).
  rewrite Hsl. cbn [running opened trace emit session_opened count_open].
  split; [done|]. split; [done|].
  unfold session_start. by rewrite <- !app_assoc.
Qed.

(** X8. The stream fails [n] times in a row, with any errors of class
    [Exception], and nobody stops the operator: the loop makes [n]
    attempts, logs each error, sleeps 5 seconds after each (the delay
    does not grow), posts nothing, and goes on with the next session. *)
Theorem consecutive_failures_flat_backoff (w : World) (xs : nat -> exn)
    (n : nat) (st : State) (fuel : nat) :
  running st = true →
  (∀ i, (i < n)%nat →
     (∃ rest, stream w (opened st + i) = Fail (xs i) :: rest)
     ∧ is_Exception (xs i) = true
     ∧ stop_during_sleep w (S (opened st + i)) = false) →
  ∃ st',
    watch_loop w (n + fuel) st = watch_loop w fuel st'
    ∧ running st' = true
    ∧ opened st' = (opened st + n)%nat
    ∧ opens (trace st') = opens (trace st) ++ replicate n (st_namespace st)
    ∧ sleeps (trace st') = sleeps (trace st) ++ replicate n 5
    ∧ errors (trace st')
      = errors (trace st) ++ ((fun i => error_line (xs i)) <$> seq 0 n)
    ∧ posted (trace st') = posted (trace st)
    ∧ reads (trace st') = reads (trace st).
Proof.
  revert xs st. induction n as [|n IH]; intros xs st Hr H.
  - exists st. cbn [replicate seq fmap list_fmap]. rewrite !app_nil_r.
    repeat split; try done; lia.
  - destruct (H O ltac:(lia)) as ((rest & Hs) & Hx & Hsl).
    rewrite Nat.add_0_r in Hs, Hsl.
    destruct (failed_iteration w (xs O) rest st Hr Hs Hx Hsl)
      as (st1 & Hb & Hr1 & Ho1 & Ht1).
    assert (st_namespace st1 = st_namespace st) as Hn1.
    { destruct (loop_body_behaves w st Hr) as (d & E & _).
      rewrite Hb in E. apply (ev_namespace _ _ _ E). }
    destruct (IH (fun i => xs (S i)) st1 Hr1) as (st' & Hw & Hr' & Ho' & O & S' & E & P & R).
    { intros i Hi. rewrite Ho1.
      replace (S (opened st) + i)%nat with (opened st + S i)%nat by lia.
      apply H. lia. }
    exists st'. split.
    { cbn [Nat.add]. rewrite watch_loop_eq, Hr. unfold bind_M.
      by rewrite Hb. }
    split; [exact Hr'|]. split; [lia|].
    rewrite O, S', E, P, R, Ht1, Hn1.
    rewrite !opens_app, !sleeps_app, !errors_app, !posted_app, !reads_app.
    cbn [seq fmap list_fmap replicate].
    rewrite <- fmap_S_seq, <- list_fmap_compose.
    unfold session_start. cbn -[replicate seq list_fmap fmap].
    rewrite !app_nil_r, <- !app_assoc. repeat split; try done.
Qed.

Lemma dict_reads_app (t1 t2 : list action) :
  dict_reads (t1 ++ t2) = dict_reads t1 ++ dict_reads t2.
Proof. apply omap_app. Qed.

(** X9. An event whose object is a dictionary, as the watch yields a
    [BOOKMARK], in the middle of a session: [_should_ignore_pod] raises on
    it, which the loop takes for an error of the stream: the error is
    logged as unexpected and the loop backs off.  The events before it
    are handled as usual; the event itself reaches neither the filter's
    answer nor the handler; the items that follow it in the session are
    never read. *)
Theorem dict_event_aborts_session (w : World) (evs : list Event)
    (bad : DictEvent) (rest : list item) (st : State) :
  running st = true →
  stream w (opened st) = (Deliver <$> evs) ++ DeliverDict bad :: rest →
  Forall (fun ev => is_Some (metadata (ev_object ev))) evs →
  ∃ st',
    loop_body w st = (Ok tt, st')
    ∧ reads (trace st') = reads (trace st) ++ evs
    ∧ (∃ t, trace st' = t ++ RecvDict bad
                          :: Log ERROR
                               "Unexpected error: 'dict' object has no attribute 'metadata'"
                          :: Sleep 5
                          :: (if stop_during_sleep w (S (opened st))
                              then stop_actions st' else []))
    ∧ posted (trace st')
      = posted (trace st) ++ omap event_message (List.filter passes evs)
    ∧ (∃ es, errors (trace st')
             = es ++ ["Unexpected error: 'dict' object has no attribute 'metadata'"])
    ∧ sleeps (trace st') = sleeps (trace st) ++ [5].
Proof.
  intros Hr Hs Hall.
  destruct (for_events_prefix_trace w evs (DeliverDict bad :: rest)
              (session_opened st) Hr Hall)
    as (st1 & Heq & Hr1 & Ho1 & _ & Hsrv & Hthr & HR & HP & HS & _ & _).
  rewrite (for_events_dict w bad rest st1 Hr1) in Heq.
  set (x := PyException "AttributeError"
              "'dict' object has no attribute 'metadata'") in *.
  exists (backed_off w x (emit (RecvDict bad) st1)).
  split; [by rewrite loop_body_eq, Hs, Heq|].
  assert (trace (backed_off w x (emit (RecvDict bad) st1))
          = trace st1 ++ RecvDict bad
              :: Log ERROR (error_line x) :: Sleep 5
              :: (if stop_during_sleep w (S (opened st))
                  then stop_actions (backed_off w x (emit (RecvDict bad) st1))
                  else [])) as Ht.
  { unfold backed_off, slept.
    change (running (emit (RecvDict bad) st1)) with (running st1).
    change (opened (emit (Log ERROR (error_line x)) (emit (RecvDict bad) st1)))
      with (opened st1).
    rewrite Hr1, Ho1. change (opened (session_opened st)) with (S (opened st)).
    destruct (stop_during_sleep w (S (opened st))).
    - unfold stopped, with_trace, stop_actions.
      cbn [trace emit hs_server hs_thread]. by rewrite <- !app_assoc.
    - cbn [trace emit]. by rewrite <- !app_assoc. }
  destruct (backed_off_trace w x (emit (RecvDict bad) st1))
    as (d & Hd & Rd & Pd & _ & Ed & Sd & _).
  change (running (emit (RecvDict bad) st1)) with (running st1) in Sd.
  rewrite Hr1 in Sd.
  split; [|split; [by eexists|]].
  - rewrite Hd. cbn [trace emit]. rewrite !reads_app, Rd, HR.
    cbn [trace session_opened emit count_open].
    rewrite !reads_app. cbn. by rewrite !app_nil_r.
  - rewrite Hd. cbn [trace emit].
    rewrite !posted_app, !sleeps_app, !errors_app, Pd, Sd, Ed, HP, HS.
    cbn [trace session_opened emit count_open].
    rewrite !posted_app, !sleeps_app. cbn. rewrite !app_nil_r.
    split; [done|]. split; [by eexists|]. done.
Qed.

(** ** Shutting down *)

(** X11. Whenever [run] ends once the health server is up, be it by a return
    or by an exception leaving the loop, its last actions are those of
    [stop]: the flag is set to false, the health server is shut down and
    its thread joined.  When the port cannot be bound, [run] raises
    before its [try]: nothing is cleaned up, the flag is not touched, and
    a later [stop] finds no server to shut down. *)
Theorem run_cleanup (w : World) (fuel : nat) (st : State) :
  (bind w = None → fst (run w fuel st) ≠ Pending →
     (∃ t, trace (snd (run w fuel st))
           = t ++ [Log INFO "Stopping Pod Monitor Operator...";
                   SetRunning false;
                   HealthShutdown;
                   HealthJoin;
                   Log INFO "Health server stopped"])
     ∧ running (snd (run w fuel st)) = false
     ∧ serving (trace (snd (run w fuel st))) = false)
  ∧ (∀ e, bind w = Some e →
       run w fuel st
       = (Raise (PyException "OSError" e),
          emit (Log INFO ("Starting Pod Monitor Operator for namespace: "
                          +:+ st_namespace st)) st)
       ∧ (hs_server st = false → hs_thread st = false →
          trace (snd (stop (snd (run w fuel st))))
          = trace (snd (run w fuel st))
            ++ [Log INFO "Stopping Pod Monitor Operator...";
                SetRunning false;
                Log INFO "Health server stopped"])).
Proof.
  split.
  - intros Hb HP. rewrite run_eq, Hb in HP |- *.
    destruct (watch_loop_behaves w fuel (started st)) as (d & E & _).
    pose proof (ev_server _ _ _ E) as Hsrv.
    pose proof (ev_thread _ _ _ E) as Hthr.
    change (hs_server (started st)) with true in Hsrv.
    change (hs_thread (started st)) with true in Hthr.
    assert (∀ st1, hs_server st1 = true → hs_thread st1 = true →
              (∃ t, trace (stopped st1)
                    = t ++ [Log INFO "Stopping Pod Monitor Operator...";
                            SetRunning false; HealthShutdown; HealthJoin;
                            Log INFO "Health server stopped"])
              ∧ running (stopped st1) = false
              ∧ serving (trace (stopped st1)) = false) as Hstop.
    { intros st1 H1 H2. unfold stopped, with_trace, stop_actions, serving.
      cbn [trace running]. rewrite H1, H2. cbn [app].
      split; [by eexists|]. split; [done|].
      rewrite !existsb_app.
      change (existsb is_HealthShutdown
                [Log INFO "Stopping Pod Monitor Operator...";
                 SetRunning false; HealthShutdown; HealthJoin;
                 Log INFO "Health server stopped"]) with true.
      rewrite orb_true_r. apply andb_false_r. }
    destruct (watch_loop w fuel (started st)) as [[u|x|] st1];
      cbn [fst snd] in *; [by apply Hstop | by apply Hstop | done].
  - intros e Hb. rewrite run_eq, Hb. split; [done|].
    intros H1 H2. cbn [snd]. rewrite stop_eq. cbn [snd].
    unfold stopped, with_trace, stop_actions. cbn [trace hs_server hs_thread emit].
    by rewrite H1, H2.
Qed.

Lemma init_ok (w : World) (ns : string) :
  startup_fails w = false →
  ∃ st0 line,
    __init__ w ns boot = (Ok tt, st0)
    ∧ bind w = None
    ∧ trace st0 = [SetRunning false; Log INFO line]
    ∧ opened st0 = O ∧ st_namespace st0 = ns.
Proof.
  unfold startup_fails. intros H.
  apply orb_false_elim in H as [H Hb]. apply orb_false_elim in H as [Hf Hk].
  assert (bind w = None) as Hbind.
  { destruct (bind w); [|done]. by rewrite bool_decide_true in Hb. }
  rewrite init_eq, Hf. cbn zeta.
  destruct (incluster_config w); [by eexists _, _|].
  destruct (kube_config w); [|by eexists _, _].
  by rewrite bool_decide_true in Hk.
Qed.

(** X12. An interrupt while the loop waits on the stream: it is not taken for
    an error of the stream (no sleep, no retry); [stop] runs on the way
    out, then [main] logs the interrupt and returns, so the process ends
    with status 0.  The events read before the interrupt were handled. *)
Theorem interrupt_exits_cleanly (w : World) (evs : list Event)
    (rest : list item) (fuel : nat) :
  startup_fails w = false →
  stream w 0 = (Deliver <$> evs) ++ Fail KeyboardInterrupt :: rest →
  Forall (fun ev => is_Some (metadata (ev_object ev))) evs →
  fst (main w (S fuel) boot) = Ok tt
  ∧ exit_code (fst (main w (S fuel) boot)) = Some 0
  ∧ running (snd (main w (S fuel) boot)) = false
  ∧ (∃ t, trace (snd (main w (S fuel) boot))
          = t ++ [Log INFO "Stopping Pod Monitor Operator...";
                  SetRunning false;
                  HealthShutdown;
                  HealthJoin;
                  Log INFO "Health server stopped";
                  Log INFO "Received interrupt signal, shutting down..."])
  ∧ sleeps (trace (snd (main w (S fuel) boot))) = []
  ∧ length (opens (trace (snd (main w (S fuel) boot)))) = 1%nat
  ∧ reads (trace (snd (main w (S fuel) boot))) = evs
  ∧ posted (trace (snd (main w (S fuel) boot)))
    = omap event_message (List.filter passes evs).
Proof.
  intros Hok Hs Hall.
  destruct (init_ok w (default "default" (environ w !! "NAMESPACE")) Hok)
    as (st0 & line & Hi & Hb & Ht0 & Ho0 & _).
  assert (running (session_opened (started st0)) = true) as Hr by done.
  destruct (for_events_prefix_trace w evs (Fail KeyboardInterrupt :: rest)
              (session_opened (started st0)) Hr Hall)
    as (st1 & Heq & Hr1 & _ & _ & Hsrv & Hthr & HR & HP & HS & _ & HO).
  rewrite for_events_fail in Heq.
  change (hs_server (session_opened (started st0))) with true in Hsrv.
  change (hs_thread (session_opened (started st0))) with true in Hthr.
  assert (main w (S fuel) boot
          = (Ok tt, emit (Log INFO "Received interrupt signal, shutting down...")
                      (stopped st1))) as Hm.
  { rewrite main_eq, Hi, run_eq, Hb, watch_loop_eq.
    change (running (started st0)) with true. cbn iota.
    unfold bind_M. rewrite loop_body_eq.
    change (opened (started st0)) with (opened st0). rewrite Ho0, Hs, Heq.
    reflexivity. }
  rewrite Hm. cbn [fst snd exit_code running emit].
  split; [done|]. split; [done|]. split; [done|].
  assert (trace (emit (Log INFO "Received interrupt signal, shutting down...")
                   (stopped st1))
          = trace st1
            ++ [Log INFO "Stopping Pod Monitor Operator...";
                SetRunning false; HealthShutdown; HealthJoin;
                Log INFO "Health server stopped";
                Log INFO "Received interrupt signal, shutting down..."])
    as ->.
  { unfold stopped, with_trace, stop_actions. cbn [trace emit].
    rewrite Hsrv, Hthr. by rewrite <- !app_assoc. }
  split; [by eexists|].
  rewrite sleeps_app, opens_app, reads_app, posted_app, HS, HO, HR, HP.
  cbn [trace session_opened started emit set_running set_health count_open].
  rewrite Ht0. cbn. rewrite !app_nil_r. done.
Qed.

(** ** Every POST answers an event *)

Lemma paired_app (url : string) (a : bool) (d1 d2 : list action) :
  paired url a (d1 ++ d2)
  = paired url a d1 && paired url (armed_after a d1) d2.
Proof.
  revert a. induction d1 as [|x d1 IH]; intros a; [done|].
  destruct x; simpl; rewrite ?IH, ?andb_assoc; done.
Qed.

Lemma silent_paired (url : string) (a : bool) (d : list action) :
  reads d = [] → posted d = [] →
  paired url a d = true ∧ armed_after a d = a.
Proof.
  induction d as [|x d IH]; [done|].
  destruct x; simpl; intros HR HP; try discriminate; by apply IH.
Qed.

Lemma paired_count (url : string) (a : bool) (d : list action) :
  paired url a d = true →
  (length (posted d) ≤ length (reads d) + (if a then 1 else 0))%nat.
Proof.
  revert a. induction d as [|x d IH]; intros a H; [simpl; lia|].
  destruct x; simpl in H |- *; try (by apply IH).
  - specialize (IH true H). simpl in IH. lia.
  - apply andb_prop in H as [[Ha _]%andb_prop H].
    specialize (IH false H). simpl in IH. rewrite Ha. lia.
Qed.

Lemma received_paired (w : World) (ev : Event) (st : State) (a : bool) :
  ∃ d, trace (received w ev st) = trace st ++ d
       ∧ paired (webhook_url st) a d = true
       ∧ webhook_url (received w ev st) = webhook_url st.
Proof.
  unfold received.
  destruct (metadata (ev_object ev)) as [m|]; [|by exists [Recv ev]].
  destruct (system_pod m); [by exists [Recv ev]|].
  unfold handled.
  destruct (notification (ev_type ev) (pod_name_of m)) as [message|].
  - unfold sent.
    destruct (delivery_log_plain message
                (webhook w (posts (emit (Recv ev) st)))) as (l & s & ->).
    eexists. cbn [trace emit count_post webhook_url].
    rewrite <- !app_assoc. split; [reflexivity|].
    cbn. unfold notifier_post. cbn. rewrite String.eqb_refl. done.
  - eexists. cbn [trace emit webhook_url]. rewrite <- !app_assoc.
    split; [reflexivity|]. done.
Qed.

Lemma stop_paired (url : string) (a : bool) (st : State) :
  paired url a (stop_actions st) = true.
Proof. unfold stop_actions. by destruct (hs_server st), (hs_thread st). Qed.

Lemma for_events_paired (w : World) (items : list item) (st : State)
    (a : bool) :
  ∃ d, trace (snd (for_events w items st)) = trace st ++ d
       ∧ paired (webhook_url st) a d = true
       ∧ webhook_url (snd (for_events w items st)) = webhook_url st.
Proof.
  revert st a. induction items as [|[ev|x| |dev] rest IH]; intros st a.
  - exists []. by rewrite app_nil_r.
  - destruct (running st) eqn:Hr.
    + destruct (metadata (ev_object ev)) as [m|] eqn:Hm.
      * rewrite (for_events_deliver w ev m rest st Hr Hm).
        destruct (received_paired w ev st a) as (d1 & T1 & P1 & U1).
        destruct (IH (received w ev st) (armed_after a d1))
          as (d2 & T2 & P2 & U2).
        exists (d1 ++ d2). rewrite T2, T1, U2, U1, <- app_assoc.
        split; [done|]. split; [|done].
        by rewrite paired_app, P1, <- U1, P2.
      * rewrite (for_events_no_metadata w ev rest st Hr Hm).
        by exists [Recv ev].
    + rewrite (for_events_break w ev rest st Hr). by exists [Recv ev].
  - rewrite for_events_fail. exists []. by rewrite app_nil_r.
  - rewrite for_events_stop_request.
    destruct (IH (stopped st) (armed_after a (stop_actions st)))
      as (d2 & T2 & P2 & U2).
    change (webhook_url (stopped st)) with (webhook_url st) in P2, U2.
    change (trace (stopped st)) with (trace st ++ stop_actions st) in T2.
    exists (stop_actions st ++ d2). rewrite T2, U2, <- app_assoc.
    split; [done|]. split; [|done].
    by rewrite paired_app, stop_paired, P2.
  - destruct (running st) eqn:Hr.
    + rewrite (for_events_dict w dev rest st Hr). by exists [RecvDict dev].
    + rewrite (for_events_dict_break w dev rest st Hr).
      by exists [RecvDict dev].
Qed.

Lemma backed_off_url (w : World) (x : exn) (st : State) :
  webhook_url (backed_off w x st) = webhook_url st.
Proof.
  destruct (backed_off_evolves w x st "") as (d & E & _).
  apply (ev_url _ _ _ E).
Qed.

Lemma loop_body_paired (w : World) (st : State) (a : bool) :
  ∃ d, trace (snd (loop_body w st)) = trace st ++ d
       ∧ paired (webhook_url st) a d = true
       ∧ webhook_url (snd (loop_body w st)) = webhook_url st.
Proof.
  rewrite loop_body_eq.
  destruct (for_events_paired w (stream w (opened st)) (session_opened st) a)
    as (d1 & T1 & P1 & U1).
  change (webhook_url (session_opened st)) with (webhook_url st) in P1, U1.
  assert (trace (snd (for_events w (stream w (opened st)) (session_opened st)))
          = trace st ++ session_start st ++ d1) as T1'.
  { rewrite T1. cbn [trace session_opened emit count_open].
    unfold session_start. by rewrite <- !app_assoc. }
  assert (paired (webhook_url st) a (session_start st ++ d1) = true) as P1'.
  { exact P1. }
  clear T1.
  destruct (for_events w _ _) as [[u|x|] st1]; cbn [snd] in *;
    try (eexists; split; [exact T1'|]; split; [exact P1' | exact U1]).
  destruct (is_Exception x);
    [|eexists; split; [exact T1'|]; split; [exact P1' | exact U1]].
  cbn [snd].
  destruct (backed_off_trace w x st1) as (d2 & T2 & R2 & Q2 & _).
  destruct (silent_paired (webhook_url st)
              (armed_after a (session_start st ++ d1)) d2 R2 Q2) as [P2 _].
  exists ((session_start st ++ d1) ++ d2).
  rewrite T2, T1', <- !app_assoc, backed_off_url, U1.
  split; [done|]. split; [|done].
  by rewrite app_assoc, paired_app, P1', P2.
Qed.

Lemma watch_loop_paired (w : World) (fuel : nat) (st : State) (a : bool) :
  ∃ d, trace (snd (watch_loop w fuel st)) = trace st ++ d
       ∧ paired (webhook_url st) a d = true
       ∧ webhook_url (snd (watch_loop w fuel st)) = webhook_url st.
Proof.
  revert st a. induction fuel as [|fuel IH]; intros st a;
    rewrite watch_loop_eq; destruct (running st);
    try (exists []; by rewrite app_nil_r).
  destruct (loop_body_paired w st a) as (d1 & T1 & P1 & U1).
  unfold bind_M.
  destruct (loop_body w st) as [[u|x|] st1]; cbn [snd] in *;
    try (eexists; split; [exact T1|]; split; [exact P1 | exact U1]).
  destruct (IH st1 (armed_after a d1)) as (d2 & T2 & P2 & U2).
  exists (d1 ++ d2). rewrite T2, T1, U2, U1, <- app_assoc.
  split; [done|]. split; [|done].
  by rewrite paired_app, P1, <- U1, P2.
Qed.

Lemma run_paired (w : World) (fuel : nat) (st : State) (a : bool) :
  ∃ d, trace (snd (run w fuel st)) = trace st ++ d
       ∧ paired (webhook_url st) a d = true.
Proof.
  rewrite run_eq. destruct (bind w) as [e|]; [by eexists [_]|].
  destruct (watch_loop_paired w fuel (started st)
              (armed_after a (start_actions st))) as (d & T & P & U).
  rewrite trace_started in T.
  change (webhook_url (started st)) with (webhook_url st) in P.
  assert (paired (webhook_url st) a (start_actions st ++ d) = true) as P0.
  { rewrite paired_app. by rewrite P. }
  destruct (watch_loop w fuel (started st)) as [[u|x|] st1]; cbn [snd] in *.
  - exists ((start_actions st ++ d) ++ stop_actions st1).
    change (trace (stopped st1)) with (trace st1 ++ stop_actions st1).
    rewrite T, <- !app_assoc. split; [done|].
    by rewrite app_assoc, paired_app, P0, stop_paired.
  - exists ((start_actions st ++ d) ++ stop_actions st1).
    change (trace (stopped st1)) with (trace st1 ++ stop_actions st1).
    rewrite T, <- !app_assoc. split; [done|].
    by rewrite app_assoc, paired_app, P0, stop_paired.
  - exists (start_actions st ++ d). rewrite T, <- app_assoc.
    split; [done | exact P0].
Qed.

(** X13. Over the whole life of the process every POST is one of the
    notifier: it goes to the URL of [SLACK_WEBHOOK_URL], under the name
    and the icon of the monitor, with a timeout of 10 seconds; and it
    answers an event read just before it that no other POST has
    answered.  So there are never more POSTs than events read. *)
Theorem every_post_answers_an_event (w : World) (fuel : nat) :
  paired (default "" (environ w !! "SLACK_WEBHOOK_URL")) false
    (trace (snd (main w fuel boot))) = true
  ∧ (length (posted (trace (snd (main w fuel boot))))
     ≤ length (reads (trace (snd (main w fuel boot)))))%nat.
Proof.
  assert (paired (default "" (environ w !! "SLACK_WEBHOOK_URL")) false
            (trace (snd (main w fuel boot))) = true) as H.
  { rewrite main_eq, init_eq.
    destruct (falsy _); [done|]. cbn zeta.
    set (url := default "" _).
    assert (∀ st, webhook_url st = url →
              paired url false (trace st) = true →
              armed_after false (trace st) = false →
              paired url false
                (trace (snd match run w fuel st with
                            | (Raise x, st2) =>
                                match on_main_error x with
                                | Some h => h st2
                                | None => (Raise x, st2)
                                end
                            | r => r
                            end)) = true) as Hrun.
    { intros st Hu Hp Ha.
      destruct (run_paired w fuel st false) as (d & T & P).
      rewrite Hu in P.
      assert (paired url false (trace st ++ d) = true) as Hpd.
      { by rewrite paired_app, Hp, Ha. }
      destruct (run w fuel st) as [[u|x|] st2]; cbn [snd] in *;
        try (by rewrite T).
      destruct x; cbn [on_main_error is_Exception];
        unfold bind_M, log, act, raise; cbn [snd trace emit];
        rewrite T, paired_app, Hpd; cbn;
        by destruct (silent_paired url (armed_after false (trace st ++ d)) []). }
    destruct (incluster_config w); [by apply Hrun|].
    destruct (kube_config w); [done | by apply Hrun]. }
  split; [exact H|].
  apply paired_count in H. lia.
Qed.

(** ** After a stop request *)

(** With the flag false the [for] loop reads at most one more event and
    handles none: nothing is posted, and the flag stays false. *)
Lemma for_events_after_stop (w : World) (items : list item) (st : State) :
  running st = false →
  ∃ d, trace (snd (for_events w items st)) = trace st ++ d
       ∧ posted d = [] ∧ sleeps d = [] ∧ opens d = []
       ∧ (length (reads d) ≤ 1)%nat
       ∧ running (snd (for_events w items st)) = false
       ∧ fst (for_events w items st) ≠ Pending.
Proof.
  revert st. induction items as [|[ev|x| |dev] rest IH]; intros st Hr.
  - exists []. rewrite app_nil_r. repeat split; try done. simpl. lia.
  - rewrite (for_events_break w ev rest st Hr). exists [Recv ev].
    repeat split; try done.
  - rewrite for_events_fail. exists []. rewrite app_nil_r.
    repeat split; try done. simpl. lia.
  - rewrite for_events_stop_request.
    destruct (IH (stopped st) eq_refl) as (d & T & P & S' & O & R & F & N).
    exists (stop_actions st ++ d).
    change (trace (stopped st)) with (trace st ++ stop_actions st) in T.
    rewrite T, <- app_assoc, posted_app, sleeps_app, opens_app, reads_app.
    rewrite P, S', O, length_app.
    assert (posted (stop_actions st) = [] ∧ sleeps (stop_actions st) = []
            ∧ opens (stop_actions st) = [] ∧ reads (stop_actions st) = [])
      as (-> & -> & -> & ->).
    { unfold stop_actions. by destruct (hs_server st), (hs_thread st). }
    repeat split; try done.
  - rewrite (for_events_dict_break w dev rest st Hr). exists [RecvDict dev].
    repeat split; try done. simpl. lia.
Qed.

(** X10. Another thread calls [stop] in the middle of a session: the events
    read before the call are handled as usual; of what the session brings
    afterwards at most one event is still read, and none is announced;
    the loop ends with this iteration, without a sleep. *)
Theorem stop_request_drops_rest (w : World) (evs : list Event)
    (rest : list item) (st : State) (fuel : nat) :
  running st = true →
  stream w (opened st) = (Deliver <$> evs) ++ StopRequest :: rest →
  Forall (fun ev => is_Some (metadata (ev_object ev))) evs →
  fst (watch_loop w (S fuel) st) ≠ Pending
  ∧ running (snd (watch_loop w (S fuel) st)) = false
  ∧ posted (trace (snd (watch_loop w (S fuel) st)))
    = posted (trace st) ++ omap event_message (List.filter passes evs)
  ∧ (∃ late, reads (trace (snd (watch_loop w (S fuel) st)))
             = reads (trace st) ++ evs ++ late
             ∧ (length late ≤ 1)%nat)
  ∧ sleeps (trace (snd (watch_loop w (S fuel) st))) = sleeps (trace st)
  ∧ length (opens (trace (snd (watch_loop w (S fuel) st))))
    = S (length (opens (trace st))).
Proof.
  intros Hr Hs Hall.
  destruct (for_events_prefix_trace w evs (StopRequest :: rest)
              (session_opened st) Hr Hall)
    as (st1 & Heq & Hr1 & _ & _ & _ & _ & HR & HP & HS & _ & HO).
  rewrite for_events_stop_request in Heq.
  destruct (for_events_after_stop w rest (stopped st1) eq_refl)
    as (d & T & P & S' & O & R & F & N).
  change (trace (stopped st1)) with (trace st1 ++ stop_actions st1) in T.
  assert (posted (stop_actions st1) = [] ∧ sleeps (stop_actions st1) = []
          ∧ opens (stop_actions st1) = [] ∧ reads (stop_actions st1) = [])
    as (Ps & Ss & Os & Rs).
  { unfold stop_actions. by destruct (hs_server st1), (hs_thread st1). }
  assert (∃ st2, loop_body w st = (Ok tt, st2) ∨
                 (∃ x, loop_body w st = (Raise x, st2))) as (st2 & Hb).
  { destruct (loop_body w st) as [[[]|x|] st2] eqn:E.
    - exists st2. by left.
    - exists st2. right. by exists x.
    - destruct (loop_body_behaves w st Hr) as (_ & _ & _ & NP & _).
      by rewrite E in NP. }
  assert (∃ l, trace (snd (loop_body w st))
               = trace (snd (for_events w rest (stopped st1))) ++ l
               ∧ posted l = [] ∧ sleeps l = [] ∧ opens l = [] ∧ reads l = []
               ∧ running (snd (loop_body w st)) = false) as (l & Tl & Pl & Sl & Ol & Rl & Fl).
  { rewrite loop_body_eq, Hs, Heq.
    destruct (for_events w rest (stopped st1)) as [[u|x|] st3];
      cbn [fst snd] in *; try (exists []; by rewrite app_nil_r).
    destruct (is_Exception x); [|exists []; by rewrite app_nil_r].
    cbn [snd]. unfold backed_off. rewrite F.
    exists [Log ERROR (error_line x)]. done. }
  assert (watch_loop w (S fuel) st
          = (fst (loop_body w st), snd (loop_body w st))) as Hw.
  { rewrite watch_loop_eq, Hr. unfold bind_M.
    destruct Hb as [Hb | [x Hb]]; rewrite Hb; [|done].
    cbn [fst snd]. rewrite Hb in Fl. cbn [snd] in Fl.
    by rewrite watch_loop_eq, Fl. }
  rewrite Hw. cbn [fst snd].
  split.
  { destruct (loop_body_behaves w st Hr) as (_ & _ & _ & NP & _). exact NP. }
  split; [exact Fl|].
  rewrite Tl, T.
  rewrite !posted_app, !sleeps_app, !opens_app, !reads_app.
  rewrite Pl, Sl, Ol, Rl, P, S', O, Ps, Ss, Os, Rs, HP, HS, HO, HR.
  cbn [trace session_opened emit count_open].
  rewrite !posted_app, !sleeps_app, !opens_app, !reads_app, !app_nil_r.
  split; [done|]. split; [|split; [done|]].
  - exists (reads d). split; [|exact R]. by rewrite <- !app_assoc.
  - cbn. rewrite length_app. simpl. lia.
Qed.

(** ** The handler and the result of the delivery *)

(** X6. [_handle_pod_event] does not look at what [send_message] returns:
    for an event of a known kind it makes the POST, [send_message] logs
    how the delivery went (an error line when the status is not 200 or
    the transport failed), and the handler logs its [Processed] line and
    returns normally all the same. *)
Theorem handler_ignores_delivery_result (w : World) (k : event_kind)
    (m : V1ObjectMeta) (st : State) :
  ∃ line,
    _handle_pod_event w (wire_name k) (to_dict {| metadata := Some m |}) st
    = (Ok tt,
       emit (Log INFO ("Processed " +:+ wire_name k +:+ " event for pod: "
                       +:+ format_value (pod_name_of m)))
         (emit line
            (count_post
               (emit (Post (webhook_url st)
                        {| text := template k (format_value (pod_name_of m));
                           username := "k8s-pod-monitor";
                           icon_emoji := ":robot_face:" |} 10) st))))
    ∧ (webhook w (posts st) = Responds 200 →
       line = Log INFO ("Slack message sent successfully: "
                        +:+ template k (format_value (pod_name_of m))))
    ∧ (∀ c, webhook w (posts st) = Responds c → c ≠ 200 →
         line = Log ERROR ("Failed to send Slack message. Status: "
                           +:+ pretty c))
    ∧ (∀ e, webhook w (posts st) = TransportFailure e →
         line = Log ERROR ("Error sending Slack message: " +:+ e)).
Proof.
  exists (delivery_log (template k (format_value (pod_name_of m)))
            (webhook w (posts st))).
  split.
  - rewrite (handle_pod_event_eq w _ {| metadata := Some m |} m st eq_refl).
    unfold handled, processed_line.
    assert (notification (wire_name k) (pod_name_of m)
            = Some (template k (format_value (pod_name_of m)))) as ->
      by (by destruct k).
    reflexivity.
  - split; [by intros ->|]. split.
    + intros c -> Hc. simpl. apply Z.eqb_neq in Hc. by rewrite Hc.
    + by intros e ->.
Qed.

(** ** The further statements at work on the sample worlds *)

Lemma clean_session_recycles_steady :
  running ready = true
  ∧ stream steady (opened ready)
    = Deliver <$> [{| ev_type := "ADDED"; ev_object := web_1 |}]
  ∧ ∃ st', loop_body steady ready = (Ok tt, st')
           ∧ sleeps (trace st') = sleeps (trace ready)
           ∧ posted (trace st') = ["Hello world from web-1"].
Proof.
  assert (Forall (fun ev => is_Some (metadata (ev_object ev)))
            [{| ev_type := "ADDED"; ev_object := web_1 |}]) as Hall.
  { repeat constructor; eexists; reflexivity. }
  split; [reflexivity|]. split; [reflexivity|].
  destruct (clean_session_recycles steady
              [{| ev_type := "ADDED"; ev_object := web_1 |}] ready 0
              eq_refl eq_refl Hall)
    as (st' & H1 & _ & _ & _ & _ & H2 & _ & H3).
  exists st'. split; [exact H1|]. split; [exact H2|].
  rewrite H3. vm_compute. reflexivity.
Defined.

Lemma consecutive_failures_flat_backoff_failing :
  running ready = true
  ∧ ∃ st', watch_loop failing (3 + 0) ready = watch_loop failing 0 st'
           ∧ sleeps (trace st') = sleeps (trace ready) ++ [5; 5; 5]
           ∧ posted (trace st') = posted (trace ready).
Proof.
  split; [reflexivity|].
  destruct (consecutive_failures_flat_backoff failing
              (fun _ => PyException "ProtocolError" "Connection broken")
              3 ready 0 eq_refl) as (st' & H1 & _ & _ & _ & H2 & _ & H3 & _).
  { intros i _. split; [by eexists|]. split; reflexivity. }
  exists st'. split; [exact H1|]. split; [|exact H3].
  rewrite H2. reflexivity.
Defined.

Lemma dict_event_aborts_session_bookmarked :
  running ready = true
  ∧ stream bookmarked (opened ready)
    = (Deliver <$> [{| ev_type := "ADDED"; ev_object := web_1 |}])
      ++ DeliverDict bookmark
      :: [Deliver {| ev_type := "DELETED"; ev_object := web_1 |}]
  ∧ ∃ st', loop_body bookmarked ready = (Ok tt, st')
           ∧ posted (trace st') = ["Hello world from web-1"]
           ∧ sleeps (trace st') = [5].
Proof.
  assert (Forall (fun ev => is_Some (metadata (ev_object ev)))
            [{| ev_type := "ADDED"; ev_object := web_1 |}]) as Hall.
  { repeat constructor; eexists; reflexivity. }
  split; [reflexivity|]. split; [reflexivity|].
  destruct (dict_event_aborts_session bookmarked
              [{| ev_type := "ADDED"; ev_object := web_1 |}]
              bookmark
              [Deliver {| ev_type := "DELETED"; ev_object := web_1 |}] ready
              eq_refl eq_refl Hall)
    as (st' & H1 & _ & _ & H2 & _ & H3).
  exists st'. split; [exact H1|].
  split; [rewrite H2; vm_compute; reflexivity | rewrite H3; reflexivity].
Defined.

Lemma interrupt_exits_cleanly_interrupted :
  startup_fails interrupted = false
  ∧ stream interrupted 0
    = (Deliver <$> [{| ev_type := "ADDED"; ev_object := web_1 |}])
      ++ Fail KeyboardInterrupt :: []
  ∧ exit_code (fst (main interrupted 1 boot)) = Some 0
  ∧ posted (trace (snd (main interrupted 1 boot)))
    = ["Hello world from web-1"].
Proof.
  assert (Forall (fun ev => is_Some (metadata (ev_object ev)))
            [{| ev_type := "ADDED"; ev_object := web_1 |}]) as Hall.
  { repeat constructor; eexists; reflexivity. }
  assert (startup_fails interrupted = false) as Hok by (vm_compute; reflexivity).
  split; [exact Hok|]. split; [reflexivity|].
  destruct (interrupt_exits_cleanly interrupted
              [{| ev_type := "ADDED"; ev_object := web_1 |}] [] 0
              Hok eq_refl Hall)
    as (_ & H1 & _ & _ & _ & _ & _ & H2).
  split; [exact H1|]. rewrite H2. vm_compute. reflexivity.
Defined.

Lemma stop_request_drops_rest_late :
  running ready = true
  ∧ stream late (opened ready)
    = (Deliver <$> [{| ev_type := "ADDED"; ev_object := web_1 |}])
      ++ StopRequest
      :: [Deliver {| ev_type := "MODIFIED"; ev_object := web_1 |};
          Deliver {| ev_type := "DELETED"; ev_object := web_1 |}]
  ∧ fst (watch_loop late 1 ready) ≠ Pending
  ∧ posted (trace (snd (watch_loop late 1 ready)))
    = ["Hello world from web-1"].
Proof.
  assert (Forall (fun ev => is_Some (metadata (ev_object ev)))
            [{| ev_type := "ADDED"; ev_object := web_1 |}]) as Hall.
  { repeat constructor; eexists; reflexivity. }
  split; [reflexivity|]. split; [reflexivity|].
  destruct (stop_request_drops_rest late
              [{| ev_type := "ADDED"; ev_object := web_1 |}]
              [Deliver {| ev_type := "MODIFIED"; ev_object := web_1 |};
               Deliver {| ev_type := "DELETED"; ev_object := web_1 |}]
              ready 0 eq_refl eq_refl Hall)
    as (H1 & _ & H2 & _).
  split; [exact H1|]. rewrite H2. vm_compute. reflexivity.
Defined.
